(** * Verification of the Neon branch resource (internal/provider/resource_branch.go)

    The Go source is embedded shallowly.  The libraries the resource is
    written against are modelled first, each in a module named after its Go
    package:

    - [time]:   [time.Time] values, [time.Unix], [Time.Unix] and
                [Time.Format(time.RFC3339)];
    - [diag]:   diagnostics and [diag.FromErr];
    - [schema]: the attribute schema and the [ResourceData] attribute bag;
    - [neon]:   the remote entity, the request payloads and the client
                interface.

    The resource itself ([resourceBranch], [intValidationNotNegative],
    [updateStateBranch] and the five operations) follows, then the theorems.

    Conventions of the embedding:
    - the bag [d *schema.ResourceData] an operation mutates is passed in and
      returned; so is [meta], which carries the remote service's state and
      the list of calls issued;
    - an operation returns [None] where the Go code would panic on a failed
      type assertion; the theorems show it never does;
    - [ctx] and the [tflog.Trace] calls have no effect on the results and
      are left out. *)

From Stdlib Require Import ZArith Lia String Ascii List DecimalString.
From stdpp Require Import base option strings gmap fin_maps.

Local Open Scope string_scope.
Local Open Scope Z_scope.

(** Go's [error] is modelled by the text that [err.Error()] returns; a nil
    error is [None]. *)
Definition error := string.

Module errors.
Definition New (text : string) : option error := Some text.
End errors.

(** Go's [int] and [int64] are 64 bits wide on the platforms the provider is
    built for; [wrap64] is two's-complement wrap-around. *)
Definition int64_min : Z := - 2 ^ 63.
Definition int64_max : Z := 2 ^ 63 - 1.
Definition in_int64 (z : Z) : Prop := int64_min <= z <= int64_max.
Definition wrap64 (z : Z) : Z := (z + 2 ^ 63) mod 2 ^ 64 - 2 ^ 63.

(** ** Package time *)
Module time.

(** [nil] and [&utcLoc] both mean UTC; [Local] is the zone of the process;
    [FixedZone] is the fabricated location made when a parsed offset is
    not the local one. *)
Inductive Location : Type :=
  | UTC
  | Local
  | FixedZone (offset : Z).

(** A [Time] without monotonic clock reading: [ext] is the number of
    seconds since January 1, year 1 00:00:00 UTC, [nsec] the nanoseconds
    kept in [wall].  The Go zero value is [ext = 0, nsec = 0, loc = nil]. *)
Record Time : Type := mkTime { ext : Z; nsec : Z; loc : Location }.

Definition zero : Time := {| ext := 0; nsec := 0; loc := UTC |}.

Definition secondsPerDay : Z := 86400.
Definition unixToInternal : Z :=
  (1969 * 365 + 1969 / 4 - 1969 / 100 + 1969 / 400) * secondsPerDay.
Definition internalToUnix : Z := - unixToInternal.

(** [time.Unix(sec, nsec)] for [0 <= nsec < 1e9]. *)
Definition Unix_ (sec nsec : Z) : Time :=
  {| ext := wrap64 (sec + unixToInternal); nsec := nsec; loc := Local |}.

(** [t.Unix()] *)
Definition Unix (t : Time) : Z := wrap64 (ext t + internalToUnix).

Section Formatting.
(** The offset, in seconds east of UTC, that the process's local zone has
    at a given Unix time. *)
Variable localOffset : Z -> Z.

Definition zoneOffset (t : Time) : Z :=
  match loc t with
  | UTC => 0
  | Local => localOffset (Unix t)
  | FixedZone off => off
  end.

(** Proleptic Gregorian date of a day count relative to 1970-01-01. *)
Definition civil (days : Z) : Z * Z * Z :=
  let z := days + 719468 in
  let era := z / 146097 in
  let doe := z - era * 146097 in
  let yoe := (doe - doe / 1460 + doe / 36524 - doe / 146096) / 365 in
  let doy := doe - (365 * yoe + yoe / 4 - yoe / 100) in
  let mp := (5 * doy + 2) / 153 in
  let d := doy - (153 * mp + 2) / 5 + 1 in
  let m := if mp <? 10 then mp + 3 else mp - 9 in
  let y := yoe + era * 400 + (if m <=? 2 then 1 else 0) in
  (y, m, d).

Definition digits (u : Z) : string :=
  NilEmpty.string_of_uint (N.to_uint (Z.to_N u)).

Fixpoint zeros (n : nat) : string :=
  match n with
  | O => ""
  | S n' => String "0" (zeros n')
  end.

(** [appendInt(b, x, width)]: sign, zero padding up to [width], digits. *)
Definition appendInt (b : string) (x : Z) (width : nat) : string :=
  let ds := digits (Z.abs x) in
  b +:+ (if x <? 0 then "-" else "")
    +:+ zeros (width - String.length ds) +:+ ds.

(** [t.appendFormatRFC3339(b, false)], which is what
    [t.Format(time.RFC3339)] runs. *)
Definition appendFormatRFC3339 (t : Time) (b : string) : string :=
  let offset := zoneOffset t in
  let abs := Unix t + offset in
  let '(year, month, day) := civil (abs / secondsPerDay) in
  let sod := abs mod secondsPerDay in
  let b := appendInt b year 4 in
  let b := appendInt (b +:+ "-") month 2 in
  let b := appendInt (b +:+ "-") day 2 in
  let b := appendInt (b +:+ "T") (sod / 3600) 2 in
  let b := appendInt (b +:+ ":") (sod mod 3600 / 60) 2 in
  let b := appendInt (b +:+ ":") (sod mod 60) 2 in
  if offset =? 0 then b +:+ "Z"
  else
    let zone := Z.quot offset 60 in
    let b := if zone <? 0 then b +:+ "-" else b +:+ "+" in
    let zone := Z.abs zone in
    let b := appendInt b (zone / 60) 2 in
    appendInt (b +:+ ":") (zone mod 60) 2.

(** [t.Format(time.RFC3339)] *)
Definition Format_RFC3339 (t : Time) : string := appendFormatRFC3339 t "".
End Formatting.

End time.

(** ** Package diag *)
Module diag.

Inductive Severity : Type := Error | Warning.

Record Diagnostic : Type :=
  mkDiagnostic { Severity_ : Severity; Summary : string; Detail : string }.

Definition Diagnostics : Type := list Diagnostic.

(** [diag.FromErr(err)]: nil for a nil error, otherwise one diagnostic of
    severity [Error] whose summary is [err.Error()]. *)
Definition FromErr (err : option error) : Diagnostics :=
  match err with
  | None => []
  | Some e => [ {| Severity_ := Error; Summary := e; Detail := "" |} ]
  end.

Definition isError (dg : Diagnostic) : bool :=
  match Severity_ dg with Error => true | Warning => false end.

(** [diags.HasError()] *)
Definition HasError (diags : Diagnostics) : bool := existsb isError diags.

End diag.

(** ** Package schema *)
Module schema.

Inductive ValueType : Type := TypeBool | TypeInt | TypeString.

(** What an [interface{}] holds in this resource; [VNil] is the nil
    interface. *)
Inductive Value : Type :=
  | VNil
  | VBool (b : bool)
  | VInt (n : Z)
  | VString (s : string).

(** The type assertions [v.(int)] and [v.(string)]; [None] is the run-time
    panic of a failed assertion. *)
Definition asInt (v : Value) : option Z :=
  match v with VInt n => Some n | _ => None end.

Definition asString (v : Value) : option string :=
  match v with VString s => Some s | _ => None end.

Definition has_type (v : Value) (ty : ValueType) : bool :=
  match v, ty with
  | VBool _, TypeBool => true
  | VInt _, TypeInt => true
  | VString _, TypeString => true
  | _, _ => false
  end.

(** [ty.Zero()] *)
Definition Zero (ty : ValueType) : Value :=
  match ty with
  | TypeBool => VBool false
  | TypeInt => VInt 0
  | TypeString => VString ""
  end.

(** [SchemaValidateFunc]: warnings and errors; [None] when the function
    panics. *)
Definition SchemaValidateFunc : Type :=
  Value -> string -> option (list string * list error).

Record Schema : Type := mkSchema {
  Type_ : ValueType;
  Required : bool;
  Optional : bool;
  Computed : bool;
  ForceNew : bool;
  ValidateFunc : option SchemaValidateFunc;
  ConflictsWith : list string;
  Description : string
  }.

(** The attribute bag.  [attrs] is the merged view that [Get] reads (state,
    configuration, diff and earlier [Set]s); a key is set when it is in the
    map.  Values unknown at plan time are outside the model. *)
Record ResourceData : Type := mkResourceData {
  Id : string;
  attrs : gmap string Value
  }.

Section WithSchema.
Variable sch : gmap string Schema.

(** A stored value is read through the schema of its key; an entry whose
    value is not of the schema's type is not readable. *)
Definition readField (d : ResourceData) (key : string) : option Value :=
  match sch !! key, attrs d !! key with
  | Some s, Some v => if has_type v (Type_ s) then Some v else None
  | _, _ => None
  end.

(** [d.Get(key)]: the stored value, the zero value of the key's type when
    nothing is stored, nil for a key outside the schema. *)
Definition Get (d : ResourceData) (key : string) : Value :=
  match sch !! key with
  | None => VNil
  | Some s => default (Zero (Type_ s)) (readField d key)
  end.

Definition isZero (v : Value) : bool :=
  match v with
  | VNil => true
  | VBool b => negb b
  | VInt n => n =? 0
  | VString s => String.eqb s ""
  end.

(** [d.GetOk(key)]: the value, and whether it is set to something other
    than the zero value. *)
Definition GetOk (d : ResourceData) (key : string) : Value * bool :=
  match readField d key with
  | Some v => (v, negb (isZero v))
  | None => (Get d key, false)
  end.

(** [d.Set(key, value)]: an error and no write when the key is not in the
    schema or the value is not of the key's type.  The error texts are
    the library's and are not relied upon. *)
Definition Set_ (d : ResourceData) (key : string) (value : Value)
  : option error * ResourceData :=
  match sch !! key with
  | None => (Some ("Invalid address to set: " +:+ key), d)
  | Some s =>
      if has_type value (Type_ s)
      then (None, {| Id := Id d; attrs := <[key := value]> (attrs d) |})
      else (Some (key +:+ ": unconvertible type"), d)
  end.
End WithSchema.

(** [d.SetId(v)] *)
Definition SetId (d : ResourceData) (v : string) : ResourceData :=
  {| Id := v; attrs := attrs d |}.

(** [schema.Resource], over the type [F] of the four context functions and
  the type [I] of the importer's [StateContext]. *)
Record Resource (F I : Type) : Type := mkResource {
  ResourceDescription : string;
  SchemaVersion : Z;
  Importer : I;
  CreateContext : F;
  ReadContext : F;
  UpdateContext : F;
  DeleteContext : F;
  Schema_ : gmap string Schema
}.
Arguments ResourceDescription {F I} _.
Arguments SchemaVersion {F I} _.
Arguments Importer {F I} _.
Arguments CreateContext {F I} _.
Arguments ReadContext {F I} _.
Arguments UpdateContext {F I} _.
Arguments DeleteContext {F I} _.
Arguments Schema_ {F I} _.

(** The four operations the framework dispatches to a resource. *)
Inductive Operation : Type := Create | Read | Update | Delete.

Definition context {F I : Type} (r : Resource F I) (op : Operation) : F :=
  match op with
  | Create => CreateContext r
  | Read => ReadContext r
  | Update => UpdateContext r
  | Delete => DeleteContext r
  end.

End schema.

(** ** Package neon (github.com/kislerdm/neon-sdk-go) *)
Module neon.

Record Branch : Type := mkBranch {
  CreatedAt : time.Time;
  CurrentState : string;
  ID : string;
  LogicalSize : Z;
  Name : string;
  ParentID : string;
  ParentLsn : string;
  ParentTimestamp : time.Time;
  PendingState : string;
  PhysicalSize : Z;
  ProjectID : string;
  UpdatedAt : time.Time
  }.

(** [neon.Branch{}] *)
Definition Branch_zero : Branch :=
  {| CreatedAt := time.zero; CurrentState := ""; ID := ""; LogicalSize := 0;
     Name := ""; ParentID := ""; ParentLsn := "";
     ParentTimestamp := time.zero; PendingState := ""; PhysicalSize := 0;
     ProjectID := ""; UpdatedAt := time.zero |}.

(** [BranchCreateRequestBranch]; the [*time.Time] is an option. *)
Record BranchCreateRequestBranch : Type := mkBranchCreateRequestBranch {
  create_ParentID : string;
  create_Name : string;
  create_ParentLsn : string;
  create_ParentTimestamp : option time.Time
  }.

Record BranchCreateRequest : Type :=
  mkBranchCreateRequest { create_Branch : BranchCreateRequestBranch }.

Record BranchUpdateRequestBranch : Type :=
  mkBranchUpdateRequestBranch { update_Name : string }.

Record BranchUpdateRequest : Type :=
  mkBranchUpdateRequest { update_Branch : BranchUpdateRequestBranch }.

(** The part of [CreatedBranch], [BranchResponse] and [BranchOperations]
    that the resource reads. *)
Record BranchResponse : Type := mkBranchResponse { resp_Branch : Branch }.

Definition Result : Type := (BranchResponse * option error)%type.

(** The four methods of [neon.Client] that the resource calls, over the
    state [World] of the remote service. *)
Record Client (World : Type) : Type := mkClient {
  CreateProjectBranch :
    string -> BranchCreateRequest -> World -> Result * World;
  GetProjectBranch : string -> string -> World -> Result * World;
  UpdateProjectBranch :
    string -> string -> BranchUpdateRequest -> World -> Result * World;
  DeleteProjectBranch : string -> string -> World -> Result * World
  }.
Arguments CreateProjectBranch {World} _ _ _ _.
Arguments GetProjectBranch {World} _ _ _ _.
Arguments UpdateProjectBranch {World} _ _ _ _ _.
Arguments DeleteProjectBranch {World} _ _ _ _.

(** A remote call as seen on the wire. *)
Inductive Call : Type :=
  | CallCreate (projectID : string) (cfg : BranchCreateRequest)
  | CallGet (projectID branchID : string)
  | CallUpdate (projectID branchID : string) (cfg : BranchUpdateRequest)
  | CallDelete (projectID branchID : string).

(** The project and the branch a call addresses. *)
Definition projectID_of (c : Call) : string :=
  match c with
  | CallCreate p _ | CallGet p _ | CallUpdate p _ _ | CallDelete p _ => p
  end.

Definition branchID_of (c : Call) : option string :=
  match c with
  | CallCreate _ _ => None
  | CallGet _ b | CallUpdate _ b _ | CallDelete _ b => Some b
  end.

(** The client's answer to a call. *)
Definition perform {World : Type} (cl : Client World) (c : Call)
  : World -> Result * World :=
  match c with
  | CallCreate p cfg => CreateProjectBranch cl p cfg
  | CallGet p b => GetProjectBranch cl p b
  | CallUpdate p b cfg => UpdateProjectBranch cl p b cfg
  | CallDelete p b => DeleteProjectBranch cl p b
  end.

End neon.

(** ** The provider *)

(** The [meta] handle: the client, the state of the remote service it talks
    to, and the calls issued so far (oldest first). *)
Record Meta (World : Type) : Type := mkMeta {
  client : neon.Client World;
  remote : World;
  calls : list neon.Call
}.
Arguments mkMeta {World} _ _ _.
Arguments client {World} _.
Arguments remote {World} _.
Arguments calls {World} _.

Definition invoke {World : Type} (meta : Meta World) (c : neon.Call)
    (run : World -> neon.Result * World) : neon.Result * Meta World :=
  let '(r, w) := run (remote meta) in
  (r, {| client := client meta; remote := w; calls := (calls meta ++ [c])%list |}).

(** [func intValidationNotNegative(v interface{}, s string) (warn []string, errs []error)] *)
Definition intValidationNotNegative (v : schema.Value) (s : string)
  : option (list string * list error) :=
  n ← schema.asInt v;
  if n <? 0
  then Some ([], ([] ++ [s +:+ " must be not negative"])%list)
  else Some ([], []).

(** The [Schema] map of [resourceBranch()]. *)
Definition resourceBranchSchema : gmap string schema.Schema :=
  list_to_map [
    ("project_id",
      schema.mkSchema schema.TypeString true false false false None []
        "Project ID.");
    ("name",
      schema.mkSchema schema.TypeString false true true false None []
        "Branch name.");
    ("parent_id",
      schema.mkSchema schema.TypeString false true true false None []
        "ID of the branch to checkout.");
    ("parent_lsn",
      schema.mkSchema schema.TypeString false true true true None
        ["parent_timestamp"]
        "Log Sequence Number (LSN) horizon for the data to be present in the new branch.
See details: https://neon.tech/docs/reference/glossary/#lsn");
    ("parent_timestamp",
      schema.mkSchema schema.TypeInt false true true true
        (Some intValidationNotNegative) ["parent_lsn"]
        "Timestamp horizon for the data to be present in the new branch. 
**Note**: it's defined as Unix epoch.'");
    ("physical_size_size",
      schema.mkSchema schema.TypeInt false false true false None []
        "Branch physical size in MB.");
    ("logical_size",
      schema.mkSchema schema.TypeInt false false true false None []
        "Branch logical size in MB.");
    ("current_state",
      schema.mkSchema schema.TypeString false false true false None []
        "Branch state.");
    ("pending_state",
      schema.mkSchema schema.TypeString false false true false None []
        "Branch pending state.");
    ("created_at",
      schema.mkSchema schema.TypeString false false true false None []
        "Branch creation timestamp.");
    ("updated_at",
      schema.mkSchema schema.TypeString false false true false None []
        "Branch last update timestamp.")
  ].

(** [d.Get], [d.GetOk] and [d.Set] on the bag of a branch resource. *)
Definition Get : schema.ResourceData -> string -> schema.Value :=
  schema.Get resourceBranchSchema.
Definition GetOk : schema.ResourceData -> string -> schema.Value * bool :=
  schema.GetOk resourceBranchSchema.
Definition Set_ : schema.ResourceData -> string -> schema.Value
                  -> option error * schema.ResourceData :=
  schema.Set_ resourceBranchSchema.

(** [if err := e; err != nil { return err }] followed by [k]. *)
Notation "'check' d' ':=' e 'in' k" :=
  (match e with
   | (Some err, d') => (Some err, d')
   | (None, d') => k
   end)
  (at level 10, d' name, e at level 100, k at level 200,
   format "'[v' 'check'  d'  ':='  e  'in' '/' k ']'").

(** [int(x)] for an [int64] [x]: both are 64 bits wide. *)
Definition int (x : Z) : Z := x.

Section Provider.
Context {World : Type}.

(** The zone offset of the process's local time zone. *)
Variable localOffset : Z -> Z.

Definition Outcome : Type :=
  option (diag.Diagnostics * schema.ResourceData * Meta World).

(** [func updateStateBranch(d *schema.ResourceData, v neon.Branch) error] *)
Definition updateStateBranch (d : schema.ResourceData) (v : neon.Branch)
  : option error * schema.ResourceData :=
  check d := Set_ d "name" (schema.VString (neon.Name v)) in
  check d := Set_ d "parent_id" (schema.VString (neon.ParentID v)) in
  check d := Set_ d "parent_lsn" (schema.VString (neon.ParentLsn v)) in
  check d := Set_ d "parent_timestamp"
               (schema.VInt (int (time.Unix (neon.ParentTimestamp v)))) in
  check d := Set_ d "logical_size" (schema.VInt (int (neon.LogicalSize v))) in
  check d := Set_ d "physical_size_size"
               (schema.VInt (int (neon.PhysicalSize v))) in
  check d := Set_ d "current_state" (schema.VString (neon.CurrentState v)) in
  check d := Set_ d "pending_state" (schema.VString (neon.PendingState v)) in
  check d := Set_ d "created_at"
               (schema.VString (time.Format_RFC3339 localOffset (neon.CreatedAt v))) in
  check d := Set_ d "updated_at"
               (schema.VString (time.Format_RFC3339 localOffset (neon.CreatedAt v))) in
  (None, d).

(** [func resourceBranchDelete(ctx, d, meta) diag.Diagnostics] *)
Definition resourceBranchDelete (d : schema.ResourceData) (meta : Meta World)
  : Outcome :=
  project_id ← schema.asString (Get d "project_id");
  let '((_, err), meta) :=
    invoke meta (neon.CallDelete project_id (schema.Id d))
      (neon.DeleteProjectBranch (client meta) project_id (schema.Id d)) in
  match err with
  | Some e => Some (diag.FromErr (Some e), d, meta)
  | None =>
      let d := schema.SetId d "" in
      let '(err, d) := updateStateBranch d neon.Branch_zero in
      Some (diag.FromErr err, d, meta)
  end.

(** [func resourceBranchUpdate(ctx, d, meta) diag.Diagnostics] *)
Definition resourceBranchUpdate (d : schema.ResourceData) (meta : Meta World)
  : Outcome :=
  let '(v, ok) := GetOk d "name" in
  stop ← (if negb ok then Some true
          else s ← schema.asString v; Some (String.eqb s ""));
  if stop : bool then Some ([], d, meta)
  else
    name ← schema.asString v;
    let cfg :=
      {| neon.update_Branch := {| neon.update_Name := name |} |} in
    project_id ← schema.asString (Get d "project_id");
    let '((resp, err), meta) :=
      invoke meta (neon.CallUpdate project_id (schema.Id d) cfg)
        (neon.UpdateProjectBranch (client meta) project_id (schema.Id d) cfg) in
    match err with
    | Some e => Some (diag.FromErr (Some e), d, meta)
    | None =>
        let '(err, d) := updateStateBranch d (neon.resp_Branch resp) in
        Some (diag.FromErr err, d, meta)
    end.

(** [func resourceBranchRead(ctx, d, meta) diag.Diagnostics] *)
Definition resourceBranchRead (d : schema.ResourceData) (meta : Meta World)
  : Outcome :=
  project_id ← schema.asString (Get d "project_id");
  let '((resp, err), meta) :=
    invoke meta (neon.CallGet project_id (schema.Id d))
      (neon.GetProjectBranch (client meta) project_id (schema.Id d)) in
  match err with
  | Some e => Some (diag.FromErr (Some e), d, meta)
  | None =>
      let '(err, d) := updateStateBranch d (neon.resp_Branch resp) in
      Some (diag.FromErr err, d, meta)
  end.

(** [func resourceBranchCreate(ctx, d, meta) diag.Diagnostics] *)
Definition resourceBranchCreate (d : schema.ResourceData) (meta : Meta World)
  : Outcome :=
  parent_id ← schema.asString (Get d "parent_id");
  name ← schema.asString (Get d "name");
  parent_lsn ← schema.asString (Get d "parent_lsn");
  let branch (ts : option time.Time) :=
    {| neon.create_ParentID := parent_id;
       neon.create_Name := name;
       neon.create_ParentLsn := parent_lsn;
       neon.create_ParentTimestamp := ts |} in
  let '(v, ok) := GetOk d "parent_timestamp" in
  ts ← (if ok then
          n ← schema.asInt v;
          Some (if 0 <? n then Some (time.Unix_ (int n) 0) else None)
        else Some None);
  let cfg := {| neon.create_Branch := branch ts |} in
  project_id ← schema.asString (Get d "project_id");
  let '((resp, err), meta) :=
    invoke meta (neon.CallCreate project_id cfg)
      (neon.CreateProjectBranch (client meta) project_id cfg) in
  match err with
  | Some e => Some (diag.FromErr (Some e), d, meta)
  | None =>
      let d := schema.SetId d (neon.ID (neon.resp_Branch resp)) in
      let '(err, d) := updateStateBranch d (neon.resp_Branch resp) in
      Some (diag.FromErr err, d, meta)
  end.

(** [func resourceBranchImport(ctx, d, meta) ([]*schema.ResourceData, error)];
    the third component is the bag [d] points to when the call returns. *)
Definition resourceBranchImport (d : schema.ResourceData) (meta : Meta World)
  : option ((list schema.ResourceData * option error)
            * schema.ResourceData * Meta World) :=
  '(diags, d, meta) ← resourceBranchRead d meta;
  if diag.HasError diags
  then
    first ← diags !! 0%nat;
    Some (([], errors.New (diag.Summary first)), d, meta)
  else Some (([d], None), d, meta).

(** [versionSchema] is a constant of the package declared in another file. *)
Variable versionSchema : Z.

(** [func resourceBranch() *schema.Resource] *)
Definition resourceBranch
  : schema.Resource
    (schema.ResourceData -> Meta World -> Outcome)
    (schema.ResourceData -> Meta World ->
     option ((list schema.ResourceData * option error)
             * schema.ResourceData * Meta World)) :=
  {| schema.ResourceDescription :=
     "Project Branch. See details: https://neon.tech/docs/introduction/branching/";
   schema.SchemaVersion := versionSchema;
   schema.Importer := resourceBranchImport;
   schema.CreateContext := resourceBranchCreate;
   schema.ReadContext := resourceBranchRead;
   schema.UpdateContext := resourceBranchUpdate;
   schema.DeleteContext := resourceBranchDelete;
   schema.Schema_ := resourceBranchSchema |}.

End Provider.

(** * Derived notions used in the statements *)

(** The attributes that [updateStateBranch] leaves in the bag, written as one
    map update: the ten [d.Set] calls in source order. *)
Definition branchAttrs (localOffset : Z -> Z) (v : neon.Branch)
    (m : gmap string schema.Value) : gmap string schema.Value :=
  <["updated_at" :=
      schema.VString (time.Format_RFC3339 localOffset (neon.CreatedAt v))]>
  (<["created_at" :=
      schema.VString (time.Format_RFC3339 localOffset (neon.CreatedAt v))]>
  (<["pending_state" := schema.VString (neon.PendingState v)]>
  (<["current_state" := schema.VString (neon.CurrentState v)]>
  (<["physical_size_size" := schema.VInt (neon.PhysicalSize v)]>
  (<["logical_size" := schema.VInt (neon.LogicalSize v)]>
  (<["parent_timestamp" :=
      schema.VInt (time.Unix (neon.ParentTimestamp v))]>
  (<["parent_lsn" := schema.VString (neon.ParentLsn v)]>
  (<["parent_id" := schema.VString (neon.ParentID v)]>
  (<["name" := schema.VString (neon.Name v)]> m))))))))).

(** The keys [updateStateBranch] writes. *)
Definition mapperKeys : list string :=
  ["name"; "parent_id"; "parent_lsn"; "parent_timestamp"; "logical_size";
   "physical_size_size"; "current_state"; "pending_state"; "created_at";
   "updated_at"].

(** A string attribute as [d.Get(key).(string)] yields it, and an integer
    attribute as [d.Get(key).(int)] yields it. *)
Definition attrString (d : schema.ResourceData) (key : string) : string :=
  default "" (schema.asString (Get d key)).
Definition attrInt (d : schema.ResourceData) (key : string) : Z :=
  default 0 (schema.asInt (Get d key)).

(** The attribute is set: the bag holds a readable value for it. *)
Definition isSet (d : schema.ResourceData) (key : string) : Prop :=
  is_Some (schema.readField resourceBranchSchema d key).

(** [meta] after one more remote call [c] that left the service in [w]. *)
Definition logged {World : Type} (meta : Meta World) (c : neon.Call)
    (w : World) : Meta World :=
  {| client := client meta; remote := w; calls := (calls meta ++ [c])%list |}.

(** The request that [resourceBranchCreate] sends, as a function of the
    attributes read back with [attrString] and [attrInt]. *)
Definition createPayload (d : schema.ResourceData) : neon.BranchCreateRequest :=
  {| neon.create_Branch :=
       {| neon.create_ParentID := attrString d "parent_id";
          neon.create_Name := attrString d "name";
          neon.create_ParentLsn := attrString d "parent_lsn";
          neon.create_ParentTimestamp :=
            if 0 <? attrInt d "parent_timestamp"
            then Some (time.Unix_ (attrInt d "parent_timestamp") 0)
            else None |} |}.

(** The request that [resourceBranchUpdate] sends. *)
Definition updatePayload (d : schema.ResourceData) : neon.BranchUpdateRequest :=
  {| neon.update_Branch := {| neon.update_Name := attrString d "name" |} |}.

(** The remote call an operation issues from the bag [d] (for [Update], when
    [name] is not empty). *)
Definition callOf (op : schema.Operation) (d : schema.ResourceData)
  : neon.Call :=
  let project_id := attrString d "project_id" in
  match op with
  | schema.Create => neon.CallCreate project_id (createPayload d)
  | schema.Read => neon.CallGet project_id (schema.Id d)
  | schema.Update => neon.CallUpdate project_id (schema.Id d) (updatePayload d)
  | schema.Delete => neon.CallDelete project_id (schema.Id d)
  end.

(** [resourceBranchUpdate] returns before any remote call: the only
    operation that can, and only when [name] reads as the empty string. *)
Definition shortCircuits (op : schema.Operation) (d : schema.ResourceData)
  : bool :=
  match op with
  | schema.Update => String.eqb (attrString d "name") ""
  | _ => false
  end.

(** The entity an operation hands to [updateStateBranch] after the remote
    answer [resp], and the identifier the bag has when it does. *)
Definition mappedEntity (op : schema.Operation) (resp : neon.BranchResponse)
  : neon.Branch :=
  match op with
  | schema.Delete => neon.Branch_zero
  | _ => neon.resp_Branch resp
  end.

Definition mappedId (op : schema.Operation) (d : schema.ResourceData)
    (resp : neon.BranchResponse) : string :=
  match op with
  | schema.Create => neon.ID (neon.resp_Branch resp)
  | schema.Delete => ""
  | _ => schema.Id d
  end.

(** The keys of [resourceBranchSchema]. *)
Definition schemaKeys : list string := "project_id" :: mapperKeys.

(** ** Concrete inputs *)

(** A process whose local zone is UTC. *)
Definition utcOnly : Z -> Z := fun _ => 0.

Definition utcTime (unixSec : Z) : time.Time :=
  {| time.ext := unixSec + time.unixToInternal; time.nsec := 0;
     time.loc := time.UTC |}.

(** A root branch as the service reports it: no parent, hence no parent
    timestamp, created 2023-11-14T22:13:20Z and updated one hour later. *)
Definition rootBranch : neon.Branch :=
  {| neon.CreatedAt := utcTime 1700000000;
     neon.CurrentState := "ready";
     neon.ID := "br-123";
     neon.LogicalSize := 42;
     neon.Name := "dev";
     neon.ParentID := "";
     neon.ParentLsn := "";
     neon.ParentTimestamp := time.zero;
     neon.PendingState := "";
     neon.PhysicalSize := 7;
     neon.ProjectID := "p1";
     neon.UpdatedAt := utcTime 1700003600 |}.

(** A branch forked from "br-main" at 2023-11-14T22:13:20Z, as the service
    reports it. *)
Definition forkedBranch : neon.Branch :=
  {| neon.CreatedAt := utcTime 1700000100;
     neon.CurrentState := "init";
     neon.ID := "br-456";
     neon.LogicalSize := 0;
     neon.Name := "dev";
     neon.ParentID := "br-main";
     neon.ParentLsn := "0/1708A40";
     neon.ParentTimestamp := utcTime 1700000000;
     neon.PendingState := "ready";
     neon.PhysicalSize := 0;
     neon.ProjectID := "p1";
     neon.UpdatedAt := utcTime 1700000100 |}.

(** A fake remote without state that answers every call with the branch [b]
    and the error [err]. *)
Definition fakeClient (b : neon.Branch) (err : option error)
  : neon.Client unit :=
  let answer := fun w : unit => ((neon.mkBranchResponse b, err), w) in
  {| neon.CreateProjectBranch := fun _ _ => answer;
     neon.GetProjectBranch := fun _ _ => answer;
     neon.UpdateProjectBranch := fun _ _ _ => answer;
     neon.DeleteProjectBranch := fun _ _ => answer |}.

Definition fakeMeta (b : neon.Branch) (err : option error) : Meta unit :=
  {| client := fakeClient b err; remote := tt; calls := [] |}.

(** The bag of a branch that exists: identifier and attributes as a
    configuration with a name and a parent timestamp leaves them. *)
Definition presentData : schema.ResourceData :=
  {| schema.Id := "br-123";
     schema.attrs :=
       <["project_id" := schema.VString "p1"]>
       (<["name" := schema.VString "dev"]>
       (<["parent_id" := schema.VString "main"]>
       (<["parent_timestamp" := schema.VInt 1700000000]> ∅))) |}.

(** The bag of a branch still to be created, without a name. *)
Definition absentData : schema.ResourceData :=
  {| schema.Id := "";
     schema.attrs :=
       <["project_id" := schema.VString "p1"]>
       (<["parent_lsn" := schema.VString "0/1708A40"]> ∅) |}.

(** * Lemmas on the attribute bag *)

#[global] Arguments Get : simpl never.
#[global] Arguments GetOk : simpl never.
#[global] Arguments Set_ : simpl never.
#[global] Arguments attrString : simpl never.
#[global] Arguments attrInt : simpl never.
#[global] Arguments resourceBranchSchema : simpl never.
#[global] Arguments time.Format_RFC3339 : simpl never.
#[global] Arguments time.Unix : simpl never.
#[global] Arguments time.Unix_ : simpl never.

Definition keyType (key : string) : option schema.ValueType :=
  schema.Type_ <$> resourceBranchSchema !! key.

Lemma keyType_strings :
  Forall (fun k => keyType k = Some schema.TypeString)
    ["project_id"; "name"; "parent_id"; "parent_lsn"; "current_state";
     "pending_state"; "created_at"; "updated_at"].
Proof. repeat constructor. Qed.

Lemma keyType_ints :
  Forall (fun k => keyType k = Some schema.TypeInt)
    ["parent_timestamp"; "logical_size"; "physical_size_size"].
Proof. repeat constructor. Qed.

Lemma keyType_lookup (key : string) (ty : schema.ValueType) :
  keyType key = Some ty ->
  exists s, resourceBranchSchema !! key = Some s /\ schema.Type_ s = ty.
Proof.
  unfold keyType. destruct (resourceBranchSchema !! key) as [s|]; simpl.
  - intros [= <-]. eauto.
  - discriminate.
Qed.

Lemma Set_typed (d : schema.ResourceData) (key : string) (v : schema.Value)
    (ty : schema.ValueType) :
  keyType key = Some ty -> schema.has_type v ty = true ->
  Set_ d key v
  = (None, schema.mkResourceData (schema.Id d) (<[key := v]> (schema.attrs d))).
Proof.
  intros Hk Hv. destruct (keyType_lookup _ _ Hk) as (s & Hs & <-).
  unfold Set_, schema.Set_. rewrite Hs, Hv. reflexivity.
Qed.

Lemma Get_typed (d : schema.ResourceData) (key : string)
    (ty : schema.ValueType) :
  keyType key = Some ty -> schema.has_type (Get d key) ty = true.
Proof.
  intros Hk. destruct (keyType_lookup _ _ Hk) as (s & Hs & <-).
  unfold Get, schema.Get, schema.readField. rewrite Hs.
  destruct (schema.attrs d !! key) as [v|]; simpl.
  - destruct (schema.has_type v (schema.Type_ s)) eqn:E; simpl; [done|].
    by destruct (schema.Type_ s).
  - by destruct (schema.Type_ s).
Qed.

Lemma Get_stored (d : schema.ResourceData) (key : string) (v : schema.Value)
    (ty : schema.ValueType) :
  keyType key = Some ty -> schema.attrs d !! key = Some v ->
  schema.has_type v ty = true -> Get d key = v.
Proof.
  intros Hk Hv Ht. destruct (keyType_lookup _ _ Hk) as (s & Hs & <-).
  unfold Get, schema.Get, schema.readField. rewrite Hs, Hv, Ht. reflexivity.
Qed.

Lemma readField_stored (d : schema.ResourceData) (key : string)
    (v : schema.Value) (ty : schema.ValueType) :
  keyType key = Some ty -> schema.attrs d !! key = Some v ->
  schema.has_type v ty = true ->
  schema.readField resourceBranchSchema d key = Some v.
Proof.
  intros Hk Hv Ht. destruct (keyType_lookup _ _ Hk) as (s & Hs & <-).
  unfold schema.readField. rewrite Hs, Hv, Ht. reflexivity.
Qed.

(** [d.Get(key).(string)] does not panic on a string attribute. *)
Lemma asString_Get (d : schema.ResourceData) (key : string) :
  keyType key = Some schema.TypeString ->
  schema.asString (Get d key) = Some (attrString d key).
Proof.
  intros Hk. pose proof (Get_typed d key _ Hk) as Ht. unfold attrString.
  by destruct (Get d key).
Qed.

(** [d.Get(key).(int)] does not panic on an integer attribute. *)
Lemma asInt_Get (d : schema.ResourceData) (key : string) :
  keyType key = Some schema.TypeInt ->
  schema.asInt (Get d key) = Some (attrInt d key).
Proof.
  intros Hk. pose proof (Get_typed d key _ Hk) as Ht. unfold attrInt.
  by destruct (Get d key).
Qed.

(** [Get] depends on the attributes only, not on the identifier. *)
Lemma Get_attrs (d d' : schema.ResourceData) (key : string) :
  schema.attrs d = schema.attrs d' -> Get d key = Get d' key.
Proof.
  intros E. unfold Get, schema.Get, schema.readField. by rewrite E.
Qed.

Lemma Get_readField (d : schema.ResourceData) (key : string)
    (v : schema.Value) :
  schema.readField resourceBranchSchema d key = Some v -> Get d key = v.
Proof.
  unfold Get, schema.Get. intros H. rewrite H.
  unfold schema.readField in H.
  by destruct (resourceBranchSchema !! key).
Qed.

Lemma Get_unset (d : schema.ResourceData) (key : string)
    (ty : schema.ValueType) :
  keyType key = Some ty ->
  schema.readField resourceBranchSchema d key = None ->
  Get d key = schema.Zero ty.
Proof.
  intros Hk H. destruct (keyType_lookup _ _ Hk) as (s & Hs & <-).
  unfold Get, schema.Get. by rewrite Hs, H.
Qed.

(** [d.GetOk] on a string attribute: the string read, and whether it is
    non-empty. *)
Lemma GetOk_string (d : schema.ResourceData) (key : string) :
  keyType key = Some schema.TypeString ->
  GetOk d key
  = (schema.VString (attrString d key),
     negb (String.eqb (attrString d key) "")).
Proof.
  intros Hk. pose proof (Get_typed d key _ Hk) as Ht.
  unfold GetOk, schema.GetOk, attrString.
  destruct (schema.readField _ d key) as [v|] eqn:E.
  - apply Get_readField in E. rewrite E in *. by destruct v.
  - fold (Get d key). rewrite (Get_unset _ _ _ Hk E). reflexivity.
Qed.

(** [d.GetOk] on an integer attribute: the integer read, and whether it is
    non-zero. *)
Lemma GetOk_int (d : schema.ResourceData) (key : string) :
  keyType key = Some schema.TypeInt ->
  GetOk d key
  = (schema.VInt (attrInt d key), negb (attrInt d key =? 0)).
Proof.
  intros Hk. pose proof (Get_typed d key _ Hk) as Ht.
  unfold GetOk, schema.GetOk, attrInt.
  destruct (schema.readField _ d key) as [v|] eqn:E.
  - apply Get_readField in E. rewrite E in *. by destruct v.
  - fold (Get d key). rewrite (Get_unset _ _ _ Hk E). reflexivity.
Qed.

(** * Lemmas on the State Mapper *)

Section Mapper.
Variable localOffset : Z -> Z.

(** On the schema of the branch resource no [d.Set] of the mapper fails:
    the mapper returns nil and leaves exactly [branchAttrs] behind. *)
Lemma updateStateBranch_eq (d : schema.ResourceData) (v : neon.Branch) :
  updateStateBranch localOffset d v
  = (None, schema.mkResourceData (schema.Id d)
             (branchAttrs localOffset v (schema.attrs d))).
Proof.
  unfold updateStateBranch, int.
  repeat (erewrite Set_typed by reflexivity; cbv beta iota; simpl schema.Id;
          simpl schema.attrs).
  reflexivity.
Qed.

Lemma branchAttrs_other (v : neon.Branch) (m : gmap string schema.Value)
    (key : string) :
  key ∉ mapperKeys -> branchAttrs localOffset v m !! key = m !! key.
Proof.
  unfold mapperKeys, branchAttrs. intros Hk.
  repeat (rewrite lookup_insert_ne; [|intros <-; apply Hk; set_solver]).
  reflexivity.
Qed.

(** What [d.Get] reads back for each key the mapper wrote. *)
Lemma Get_branchAttrs (id : string) (v : neon.Branch)
    (m : gmap string schema.Value) :
  let d' := schema.mkResourceData id (branchAttrs localOffset v m) in
  Get d' "name" = schema.VString (neon.Name v)
  /\ Get d' "parent_id" = schema.VString (neon.ParentID v)
  /\ Get d' "parent_lsn" = schema.VString (neon.ParentLsn v)
  /\ Get d' "parent_timestamp"
     = schema.VInt (time.Unix (neon.ParentTimestamp v))
  /\ Get d' "logical_size" = schema.VInt (neon.LogicalSize v)
  /\ Get d' "physical_size_size" = schema.VInt (neon.PhysicalSize v)
  /\ Get d' "current_state" = schema.VString (neon.CurrentState v)
  /\ Get d' "pending_state" = schema.VString (neon.PendingState v)
  /\ Get d' "created_at"
     = schema.VString (time.Format_RFC3339 localOffset (neon.CreatedAt v))
  /\ Get d' "updated_at"
     = schema.VString (time.Format_RFC3339 localOffset (neon.CreatedAt v)).
Proof.
  intros d'. repeat split;
    (eapply Get_stored;
     [reflexivity | subst d'; unfold branchAttrs; by simplify_map_eq
     | reflexivity]).
Qed.

End Mapper.

(** * Lemmas on the operations: each one as a function of the remote answer *)

Section Operations.
Context {World : Type}.
Variable localOffset : Z -> Z.

Lemma resourceBranchRead_eq (d : schema.ResourceData) (meta : Meta World) :
  resourceBranchRead localOffset d meta
  = let project_id := attrString d "project_id" in
    let '((resp, err), w) :=
      neon.GetProjectBranch (client meta) project_id (schema.Id d)
        (remote meta) in
    let meta' := logged meta (neon.CallGet project_id (schema.Id d)) w in
    match err with
    | Some e => Some (diag.FromErr (Some e), d, meta')
    | None =>
        Some ([], schema.mkResourceData (schema.Id d)
                    (branchAttrs localOffset (neon.resp_Branch resp)
                       (schema.attrs d)), meta')
    end.
Proof.
  unfold resourceBranchRead, invoke, logged.
  rewrite asString_Get by reflexivity. cbn [mbind option_bind].
  destruct (neon.GetProjectBranch _ _ _ _) as [[resp [e|]] w]; [reflexivity|].
  rewrite updateStateBranch_eq. reflexivity.
Qed.

Lemma resourceBranchDelete_eq (d : schema.ResourceData) (meta : Meta World) :
  resourceBranchDelete localOffset d meta
  = let project_id := attrString d "project_id" in
    let '((_, err), w) :=
      neon.DeleteProjectBranch (client meta) project_id (schema.Id d)
        (remote meta) in
    let meta' := logged meta (neon.CallDelete project_id (schema.Id d)) w in
    match err with
    | Some e => Some (diag.FromErr (Some e), d, meta')
    | None =>
        Some ([], schema.mkResourceData ""
                    (branchAttrs localOffset neon.Branch_zero (schema.attrs d)),
              meta')
    end.
Proof.
  unfold resourceBranchDelete, invoke, logged.
  rewrite asString_Get by reflexivity. cbn [mbind option_bind].
  destruct (neon.DeleteProjectBranch _ _ _ _) as [[resp [e|]] w];
    [reflexivity|].
  rewrite updateStateBranch_eq. reflexivity.
Qed.

Lemma resourceBranchUpdate_eq (d : schema.ResourceData) (meta : Meta World) :
  resourceBranchUpdate localOffset d meta
  = if String.eqb (attrString d "name") "" then Some ([], d, meta)
    else
      let project_id := attrString d "project_id" in
      let cfg := updatePayload d in
      let '((resp, err), w) :=
        neon.UpdateProjectBranch (client meta) project_id (schema.Id d) cfg
          (remote meta) in
      let meta' :=
        logged meta (neon.CallUpdate project_id (schema.Id d) cfg) w in
      match err with
      | Some e => Some (diag.FromErr (Some e), d, meta')
      | None =>
          Some ([], schema.mkResourceData (schema.Id d)
                      (branchAttrs localOffset (neon.resp_Branch resp)
                         (schema.attrs d)), meta')
      end.
Proof.
  unfold resourceBranchUpdate, invoke, logged, updatePayload.
  rewrite GetOk_string by reflexivity.
  rewrite !asString_Get by reflexivity.
  cbn [mbind option_bind schema.asString].
  case (String.eqb (attrString d "name") ""); cbn [negb]; [reflexivity|].
  destruct (neon.UpdateProjectBranch _ _ _ _ _) as [[resp [e|]] w];
    [reflexivity|].
  rewrite updateStateBranch_eq. reflexivity.
Qed.

Lemma resourceBranchCreate_eq (d : schema.ResourceData) (meta : Meta World) :
  resourceBranchCreate localOffset d meta
  = let project_id := attrString d "project_id" in
    let cfg := createPayload d in
    let '((resp, err), w) :=
      neon.CreateProjectBranch (client meta) project_id cfg (remote meta) in
    let meta' := logged meta (neon.CallCreate project_id cfg) w in
    match err with
    | Some e => Some (diag.FromErr (Some e), d, meta')
    | None =>
        Some ([], schema.mkResourceData (neon.ID (neon.resp_Branch resp))
                    (branchAttrs localOffset (neon.resp_Branch resp)
                       (schema.attrs d)), meta')
    end.
Proof.
  unfold resourceBranchCreate, invoke, logged, createPayload, int.
  rewrite !asString_Get by reflexivity.
  rewrite GetOk_int by reflexivity.
  cbn [mbind option_bind schema.asInt].
  generalize (attrInt d "parent_timestamp"); intros n.
  replace (if negb (n =? 0)
           then Some (if 0 <? n then Some (time.Unix_ n 0) else None)
           else Some None)
    with (Some (if 0 <? n then Some (time.Unix_ n 0) else None)).
  2:{ destruct (Z.eqb_spec n 0) as [->|]; reflexivity. }
  cbn [mbind option_bind].
  destruct (neon.CreateProjectBranch _ _ _ _) as [[resp [e|]] w];
    [reflexivity|].
  rewrite updateStateBranch_eq. reflexivity.
Qed.

End Operations.

Section ReadTotal.
Context {World : Type}.
Variable localOffset : Z -> Z.

(** [resourceBranchRead] always returns, with at most one diagnostic, which
    is then an error. *)
Lemma resourceBranchRead_total (d : schema.ResourceData) (meta : Meta World) :
  exists diags d' meta',
    resourceBranchRead localOffset d meta = Some (diags, d', meta')
    /\ (diags = [] \/ exists e, diags = [diag.mkDiagnostic diag.Error e ""]).
Proof.
  rewrite resourceBranchRead_eq. cbv zeta.
  destruct (neon.GetProjectBranch _ _ _ _) as [[resp [e|]] w];
    do 3 eexists; (split; [reflexivity|]); [right|left]; eauto.
Qed.

End ReadTotal.

(** * Checks of the library model on known values *)

Example Format_zero_time :
  time.Format_RFC3339 utcOnly time.zero = "0001-01-01T00:00:00Z".
Proof. vm_compute. reflexivity. Qed.

Example Format_2023 :
  time.Format_RFC3339 utcOnly (utcTime 1700000000) = "2023-11-14T22:13:20Z".
Proof. vm_compute. reflexivity. Qed.

Example Format_leap_day :
  time.Format_RFC3339 utcOnly (utcTime 1709251199) = "2024-02-29T23:59:59Z".
Proof. vm_compute. reflexivity. Qed.

Example Format_fixed_zone :
  time.Format_RFC3339 utcOnly
    {| time.ext := 1700000000 + time.unixToInternal; time.nsec := 0;
       time.loc := time.FixedZone (-19800) |}
  = "2023-11-14T16:43:20-05:30".
Proof. vm_compute. reflexivity. Qed.

Example Unix_zero_time : time.Unix time.zero = -62135596800.
Proof. vm_compute. reflexivity. Qed.

Lemma wrap64_id (z : Z) : in_int64 z -> wrap64 z = z.
Proof.
  unfold in_int64, int64_min, int64_max, wrap64. intros H.
  rewrite Z.mod_small; lia.
Qed.

(** [time.Unix(sec, 0).Unix() == sec] for every 64-bit [sec]. *)
Lemma Unix_roundtrip (sec : Z) :
  in_int64 sec -> time.Unix (time.Unix_ sec 0) = sec.
Proof.
  unfold in_int64, int64_min, int64_max, time.Unix, time.Unix_, wrap64,
    time.internalToUnix. simpl time.ext. intros H.
  set (c := time.unixToInternal).
  set (q := (sec + c + 2 ^ 63) / 2 ^ 64).
  assert (E : (sec + c + 2 ^ 63) mod 2 ^ 64 = sec + c + 2 ^ 63 - 2 ^ 64 * q)
    by (unfold q; rewrite Z.mod_eq; lia).
  rewrite E.
  replace (sec + c + 2 ^ 63 - 2 ^ 64 * q - 2 ^ 63 + - c + 2 ^ 63)
    with (sec + 2 ^ 63 + (- q) * 2 ^ 64) by lia.
  rewrite Z_mod_plus_full, Z.mod_small; lia.
Qed.

Lemma prefix_append (s t : string) : String.prefix s (s +:+ t) = true.
Proof.
  induction s as [|a s IH]; simpl.
  - by destruct t.
  - destruct (Ascii.ascii_dec a a); [exact IH | congruence].
Qed.

(** * The claims *)

(** ** Validation *)

(** C7: for every integer [n] given as the value of a field named [s],
    validation returns without panic and without warnings; it returns exactly
    one error, whose text is [s] followed by " must be not negative" and so
    names the field, when [n < 0], and no error when [0 <= n].  The result
    depends on [n] and [s] only, and this function is the validator the
    schema attaches to [parent_timestamp]. *)
Theorem C7_validation_not_negative (n : Z) (s : string) :
  exists errs : list error,
    intValidationNotNegative (schema.VInt n) s = Some ([], errs)
    /\ (n < 0 <-> errs <> [])
    /\ (n < 0 <-> errs = [s +:+ " must be not negative"])
    /\ (0 <= n <-> errs = [])
    /\ Forall (fun e => String.prefix s e = true) errs
    /\ (schema.ValidateFunc <$> resourceBranchSchema !! "parent_timestamp")
       = Some (Some intValidationNotNegative).
Proof.
  unfold intValidationNotNegative. cbn [mbind option_bind schema.asInt].
  destruct (Z.ltb_spec n 0) as [Hn|Hn]; eexists; (split; [reflexivity|]).
  - repeat split; try done; try lia.
    repeat constructor. apply prefix_append.
  - repeat split; try done; try lia.
Qed.

(** ** Resource Definition *)

(** C8, as stated, fails: the schema has no attribute named
    [physical_size_mb] and none named [logical_size_mb]. *)
Lemma C8_no_attribute_named_mb :
  ~ (is_Some (resourceBranchSchema !! "physical_size_mb")
     \/ is_Some (resourceBranchSchema !! "logical_size_mb")).
Proof. intros [[x H]|[x H]]; vm_compute in H; discriminate. Qed.

(** C8, amended: the schema has a computed integer attribute named
    [logical_size], described as the logical size in MB, to which the State
    Mapper writes the remote logical size, and a computed integer attribute,
    described as the physical size in MB, to which the State Mapper writes
    the remote physical size; neither is required or optional, and no
    attribute is named [physical_size_mb] or [logical_size_mb]. *)
Theorem C8_size_attributes (localOffset : Z -> Z) :
  (exists s,
     resourceBranchSchema !! "logical_size" = Some s
     /\ schema.Type_ s = schema.TypeInt /\ schema.Computed s = true
     /\ schema.Required s = false /\ schema.Optional s = false
     /\ schema.Description s = "Branch logical size in MB."
     /\ forall d v,
          Get (updateStateBranch localOffset d v).2 "logical_size"
          = schema.VInt (neon.LogicalSize v))
  /\ (exists key s,
        resourceBranchSchema !! key = Some s
        /\ schema.Type_ s = schema.TypeInt /\ schema.Computed s = true
        /\ schema.Required s = false /\ schema.Optional s = false
        /\ schema.Description s = "Branch physical size in MB."
        /\ forall d v,
             Get (updateStateBranch localOffset d v).2 key
             = schema.VInt (neon.PhysicalSize v))
  /\ resourceBranchSchema !! "physical_size_mb" = None
  /\ resourceBranchSchema !! "logical_size_mb" = None.
Proof.
  split; [|split; [|split; reflexivity]].
  - eexists. split; [reflexivity|]. repeat (split; [reflexivity|]).
    intros d v. rewrite updateStateBranch_eq.
    apply (Get_branchAttrs localOffset (schema.Id d) v (schema.attrs d)).
  - exists "physical_size_size". eexists. split; [reflexivity|].
    repeat (split; [reflexivity|]).
    intros d v. rewrite updateStateBranch_eq.
    apply (Get_branchAttrs localOffset (schema.Id d) v (schema.attrs d)).
Qed.

(** ** State Mapper *)

(** What the mapper does for every bag and every remote entity: it returns
    nil, leaves the identifier and every attribute outside its ten keys (so
    [project_id] too) as they were, and stores the ten values below. *)
Lemma updateStateBranch_writes (localOffset : Z -> Z)
    (d : schema.ResourceData) (v : neon.Branch) :
  exists d',
    updateStateBranch localOffset d v = (None, d')
    /\ schema.Id d' = schema.Id d
    /\ (forall key, key ∉ mapperKeys ->
          schema.attrs d' !! key = schema.attrs d !! key)
    /\ Get d' "project_id" = Get d "project_id"
    /\ Get d' "name" = schema.VString (neon.Name v)
    /\ Get d' "parent_id" = schema.VString (neon.ParentID v)
    /\ Get d' "parent_lsn" = schema.VString (neon.ParentLsn v)
    /\ Get d' "parent_timestamp"
       = schema.VInt (time.Unix (neon.ParentTimestamp v))
    /\ Get d' "logical_size" = schema.VInt (neon.LogicalSize v)
    /\ Get d' "physical_size_size" = schema.VInt (neon.PhysicalSize v)
    /\ Get d' "current_state" = schema.VString (neon.CurrentState v)
    /\ Get d' "pending_state" = schema.VString (neon.PendingState v)
    /\ Get d' "created_at"
       = schema.VString (time.Format_RFC3339 localOffset (neon.CreatedAt v))
    /\ Get d' "updated_at"
       = schema.VString (time.Format_RFC3339 localOffset (neon.CreatedAt v)).
Proof.
  eexists. split; [apply updateStateBranch_eq|].
  split; [reflexivity|]. split.
  { intros key Hk. simpl. by apply branchAttrs_other. }
  split.
  { unfold Get, schema.Get, schema.readField. simpl schema.attrs.
    rewrite branchAttrs_other; [reflexivity|]. unfold mapperKeys.
    intros H. repeat (apply elem_of_cons in H as [H|H]; [discriminate|]).
    by apply elem_of_nil in H. }
  apply Get_branchAttrs.
Qed.

(** C1, at a remote branch created at 22:13:20Z and updated at 23:13:20Z:
    the mapper stores under [updated_at] the rendering of the creation
    timestamp, not that of the update timestamp, which the claim requires. *)
Theorem C1_updated_at_is_rendered_from_CreatedAt :
  let d' := (updateStateBranch utcOnly presentData rootBranch).2 in
  Get d' "created_at" = schema.VString "2023-11-14T22:13:20Z"
  /\ Get d' "updated_at" = schema.VString "2023-11-14T22:13:20Z"
  /\ time.Format_RFC3339 utcOnly (neon.UpdatedAt rootBranch)
     = "2023-11-14T23:13:20Z"
  /\ Get d' "updated_at"
     <> schema.VString (time.Format_RFC3339 utcOnly (neon.UpdatedAt rootBranch)).
Proof. vm_compute. repeat split; try reflexivity. discriminate. Qed.

(** ** Reconciler *)

Section Reconciler.
Context {World : Type}.
Variable localOffset : Z -> Z.
Variable versionSchema : Z.

Lemma attrInt_positive_isSet (d : schema.ResourceData) (key : string) :
  keyType key = Some schema.TypeInt -> 0 < attrInt d key -> isSet d key.
Proof.
  intros Hk Hpos. unfold isSet.
  destruct (schema.readField resourceBranchSchema d key) as [v|] eqn:E;
    [by eexists|].
  unfold attrInt in Hpos. rewrite (Get_unset _ _ _ Hk E) in Hpos.
  simpl in Hpos. lia.
Qed.

Lemma attrString_empty (d : schema.ResourceData) (key : string) :
  keyType key = Some schema.TypeString ->
  schema.attrs d !! key = None
  \/ schema.attrs d !! key = Some (schema.VString "") ->
  attrString d key = "".
Proof.
  intros Hk [H|H]; unfold attrString.
  - rewrite (Get_unset _ _ _ Hk); [reflexivity|].
    unfold schema.readField. rewrite H.
    by destruct (resourceBranchSchema !! key).
  - by rewrite (Get_stored _ _ _ _ Hk H eq_refl).
Qed.

(** C2: when the remote delete succeeds, [resourceBranchDelete] returns no
    diagnostic and leaves the identifier empty, the string attributes [name],
    [parent_id], [parent_lsn], [current_state], [pending_state] empty and the
    two sizes 0; but [parent_timestamp] is left at -62135596800 and
    [created_at] and [updated_at] at "0001-01-01T00:00:00Z", which are not
    the zero values 0 and "" that the claim requires. *)
Theorem C2_delete_leaves_zero_time_rendering (d : schema.ResourceData)
    (meta : Meta World) (resp : neon.BranchResponse) (w : World) :
  neon.DeleteProjectBranch (client meta) (attrString d "project_id")
    (schema.Id d) (remote meta) = ((resp, None), w) ->
  exists d',
    resourceBranchDelete localOffset d meta
    = Some ([], d', logged meta (callOf schema.Delete d) w)
    /\ schema.Id d' = ""
    /\ Get d' "name" = schema.VString ""
    /\ Get d' "parent_id" = schema.VString ""
    /\ Get d' "parent_lsn" = schema.VString ""
    /\ Get d' "logical_size" = schema.VInt 0
    /\ Get d' "physical_size_size" = schema.VInt 0
    /\ Get d' "current_state" = schema.VString ""
    /\ Get d' "pending_state" = schema.VString ""
    /\ Get d' "parent_timestamp" = schema.VInt (-62135596800)
    /\ Get d' "created_at" = schema.VString "0001-01-01T00:00:00Z"
    /\ Get d' "updated_at" = schema.VString "0001-01-01T00:00:00Z".
Proof.
  intros Hdel. rewrite resourceBranchDelete_eq. cbv zeta. rewrite Hdel.
  eexists. split; [reflexivity|]. split; [reflexivity|].
  pose proof (Get_branchAttrs localOffset "" neon.Branch_zero (schema.attrs d))
    as (Hn & Hpi & Hpl & Hpt & Hls & Hps & Hcs & Hpe & Hca & Hua).
  cbv zeta in *. repeat split; assumption.
Qed.

(** C4: [resourceBranchCreate] always reaches the remote call; the call it
    issues carries the [project_id] attribute and a payload whose
    [ParentID], [Name] and [ParentLsn] are the attributes [parent_id],
    [name] and [parent_lsn]; the payload has a [ParentTimestamp] exactly
    when [parent_timestamp] is set and greater than 0, and it is then
    [time.Unix(parent_timestamp, 0)], whose epoch seconds are
    [parent_timestamp] again. *)
Theorem C4_create_payload (d : schema.ResourceData) (meta : Meta World) :
  exists cfg diags d' meta',
    resourceBranchCreate localOffset d meta = Some (diags, d', meta')
    /\ calls meta'
       = (calls meta ++ [neon.CallCreate (attrString d "project_id") cfg])%list
    /\ neon.create_ParentID (neon.create_Branch cfg) = attrString d "parent_id"
    /\ neon.create_Name (neon.create_Branch cfg) = attrString d "name"
    /\ neon.create_ParentLsn (neon.create_Branch cfg)
       = attrString d "parent_lsn"
    /\ (is_Some (neon.create_ParentTimestamp (neon.create_Branch cfg))
        <-> isSet d "parent_timestamp" /\ 0 < attrInt d "parent_timestamp")
    /\ (forall t,
          neon.create_ParentTimestamp (neon.create_Branch cfg) = Some t ->
          t = time.Unix_ (attrInt d "parent_timestamp") 0
          /\ (in_int64 (attrInt d "parent_timestamp") ->
              time.Unix t = attrInt d "parent_timestamp")).
Proof.
  assert (Hts :
    (is_Some (neon.create_ParentTimestamp (neon.create_Branch (createPayload d)))
     <-> isSet d "parent_timestamp" /\ 0 < attrInt d "parent_timestamp")
    /\ (forall t,
          neon.create_ParentTimestamp (neon.create_Branch (createPayload d))
          = Some t ->
          t = time.Unix_ (attrInt d "parent_timestamp") 0
          /\ (in_int64 (attrInt d "parent_timestamp") ->
              time.Unix t = attrInt d "parent_timestamp"))).
  { unfold createPayload.
    cbn [neon.create_Branch neon.create_ParentTimestamp].
    destruct (Z.ltb_spec 0 (attrInt d "parent_timestamp")) as [Hp|Hp].
    - split.
      + split; [intros _; split; [by apply attrInt_positive_isSet | done]
               | intros _; by eexists].
      + intros t [= <-]. split; [reflexivity | apply Unix_roundtrip].
    - split.
      + split; [intros [t Ht]; discriminate | intros [_ Hpos]; lia].
      + intros t Ht. discriminate. }
  exists (createPayload d). rewrite resourceBranchCreate_eq. cbv zeta.
  destruct (neon.CreateProjectBranch _ _ _ _) as [[resp [e|]] w];
    do 3 eexists; (split; [reflexivity|]); (split; [reflexivity|]);
    (do 3 (split; [reflexivity|])); exact Hts.
Qed.

(** C5: when the bag holds no [name], or holds the empty string as [name],
    [resourceBranchUpdate] returns no diagnostic and leaves the bag (its
    identifier and every attribute) and the remote side (its state and the
    list of calls issued) as they were. *)
Theorem C5_update_without_name_is_noop (d : schema.ResourceData)
    (meta : Meta World) :
  schema.attrs d !! "name" = None
  \/ schema.attrs d !! "name" = Some (schema.VString "") ->
  resourceBranchUpdate localOffset d meta = Some ([], d, meta).
Proof.
  intros H. rewrite resourceBranchUpdate_eq.
  by rewrite (attrString_empty d "name" eq_refl H).
Qed.

(** C6: when the remote call of Create, or of Delete, answers with the error
    [e], the operation returns exactly one diagnostic, of severity Error and
    with summary [e]; the bag (identifier and attributes) is as before, so a
    resource without identifier stays without and one with identifier keeps
    it; and exactly one call was added to the calls issued. *)
Theorem C6_remote_failure (op : schema.Operation) (d : schema.ResourceData)
    (meta : Meta World) (resp : neon.BranchResponse) (e : error) (w : World) :
  op = schema.Create \/ op = schema.Delete ->
  neon.perform (client meta) (callOf op d) (remote meta)
  = ((resp, Some e), w) ->
  schema.context (resourceBranch localOffset versionSchema) op d meta
  = Some ([diag.mkDiagnostic diag.Error e ""], d,
          mkMeta (client meta) w (calls meta ++ [callOf op d])%list).
Proof.
  intros [-> | ->] Hcall; simpl in Hcall; cbn [schema.context resourceBranch
    schema.CreateContext schema.DeleteContext].
  - rewrite resourceBranchCreate_eq. cbv zeta. by rewrite Hcall.
  - rewrite resourceBranchDelete_eq. cbv zeta. by rewrite Hcall.
Qed.

(** C9: [resourceBranchImport] runs [resourceBranchRead] on the bag it is
    given, hence one remote get with the bag's [project_id] and identifier.
    Either the Read returned no diagnostic, and Import returns a nil error
    and the one bag that the Read left, which is fully populated: the remote
    get succeeded with a branch, the bag is the one the State Mapper makes
    of the bag given and that branch, it keeps the identifier supplied, and
    each of the ten mapped attributes reads as the mapper writes it from
    that branch.  Or the Read returned an error diagnostic, and Import
    returns no bag and an error whose text is the summary of the first
    diagnostic, which is the text of the remote error; the bag is then as it
    was given. *)
Theorem C9_import (d : schema.ResourceData) (meta : Meta World) :
  schema.Importer (resourceBranch (World := World) localOffset versionSchema)
  = resourceBranchImport localOffset
  /\ exists diags d' meta',
       resourceBranchRead localOffset d meta = Some (diags, d', meta')
       /\ calls meta' = (calls meta ++ [callOf schema.Read d])%list
       /\ ((diag.HasError diags = false
            /\ resourceBranchImport localOffset d meta
               = Some (([d'], None), d', meta')
            /\ exists resp w,
                 neon.perform (client meta) (callOf schema.Read d)
                   (remote meta)
                 = ((resp, None), w)
                 /\ updateStateBranch localOffset d (neon.resp_Branch resp)
                    = (None, d')
                 /\ schema.Id d' = schema.Id d
                 /\ Get d' "name"
                    = schema.VString (neon.Name (neon.resp_Branch resp))
                 /\ Get d' "parent_id"
                    = schema.VString (neon.ParentID (neon.resp_Branch resp))
                 /\ Get d' "parent_lsn"
                    = schema.VString (neon.ParentLsn (neon.resp_Branch resp))
                 /\ Get d' "parent_timestamp"
                    = schema.VInt
                        (time.Unix
                           (neon.ParentTimestamp (neon.resp_Branch resp)))
                 /\ Get d' "logical_size"
                    = schema.VInt (neon.LogicalSize (neon.resp_Branch resp))
                 /\ Get d' "physical_size_size"
                    = schema.VInt (neon.PhysicalSize (neon.resp_Branch resp))
                 /\ Get d' "current_state"
                    = schema.VString
                        (neon.CurrentState (neon.resp_Branch resp))
                 /\ Get d' "pending_state"
                    = schema.VString
                        (neon.PendingState (neon.resp_Branch resp))
                 /\ Get d' "created_at"
                    = schema.VString
                        (time.Format_RFC3339 localOffset
                           (neon.CreatedAt (neon.resp_Branch resp)))
                 /\ Get d' "updated_at"
                    = schema.VString
                        (time.Format_RFC3339 localOffset
                           (neon.CreatedAt (neon.resp_Branch resp))))
           \/ (exists first rest,
                 diags = first :: rest
                 /\ diag.HasError diags = true
                 /\ resourceBranchImport localOffset d meta
                    = Some (([], Some (diag.Summary first)), d', meta')
                 /\ d' = d
                 /\ exists resp w,
                      neon.perform (client meta) (callOf schema.Read d)
                        (remote meta)
                      = ((resp, Some (diag.Summary first)), w))).
Proof.
  split; [reflexivity|].
  unfold resourceBranchImport. rewrite resourceBranchRead_eq. cbv zeta.
  cbn [callOf neon.perform].
  destruct (neon.GetProjectBranch _ _ _ _) as [[resp [e|]] w];
    do 3 eexists; (split; [reflexivity|]); (split; [reflexivity|]).
  - right. do 2 eexists. do 4 (split; [reflexivity|]).
    exists resp, w. reflexivity.
  - left. do 2 (split; [reflexivity|]). exists resp, w.
    split; [reflexivity|]. split; [apply updateStateBranch_eq|].
    split; [reflexivity|].
    apply (Get_branchAttrs localOffset (schema.Id d) (neon.resp_Branch resp)
             (schema.attrs d)).
Qed.

(** C10: every application of the State Mapper returns nil and leaves
    [created_at] and [updated_at] both at the RFC3339 rendering of the remote
    entity's [CreatedAt]; hence after every Create, Read, Update with a
    non-empty name and Delete that returns no diagnostic the two attributes
    are equal, both rendering the [CreatedAt] of the entity the mapper was
    given: the branch in the remote answer, or [neon.Branch{}] on Delete. *)
Theorem C10_created_at_equals_updated_at :
  (forall d v, exists d',
     updateStateBranch localOffset d v = (None, d')
     /\ Get d' "created_at"
        = schema.VString (time.Format_RFC3339 localOffset (neon.CreatedAt v))
     /\ Get d' "updated_at"
        = schema.VString (time.Format_RFC3339 localOffset (neon.CreatedAt v)))
  /\ (forall op d (meta : Meta World) d' meta',
        schema.context (resourceBranch localOffset versionSchema) op d meta
        = Some ([], d', meta') ->
        (op = schema.Update -> attrString d "name" <> "") ->
        exists resp w,
          neon.perform (client meta) (callOf op d) (remote meta)
          = ((resp, None), w)
          /\ let v := match op with
                      | schema.Delete => neon.Branch_zero
                      | _ => neon.resp_Branch resp
                      end in
             Get d' "created_at"
             = schema.VString
                 (time.Format_RFC3339 localOffset (neon.CreatedAt v))
             /\ Get d' "updated_at"
                = schema.VString
                    (time.Format_RFC3339 localOffset (neon.CreatedAt v))
             /\ Get d' "created_at" = Get d' "updated_at").
Proof.
  split.
  - intros d v. eexists. split; [apply updateStateBranch_eq|].
    apply (Get_branchAttrs localOffset (schema.Id d) v (schema.attrs d)).
  - intros op d meta d' meta' Hrun Hname.
    assert (Hget : forall id v m,
      let r := schema.mkResourceData id (branchAttrs localOffset v m) in
      Get r "created_at"
      = schema.VString (time.Format_RFC3339 localOffset (neon.CreatedAt v))
      /\ Get r "updated_at"
         = schema.VString (time.Format_RFC3339 localOffset (neon.CreatedAt v))
      /\ Get r "created_at" = Get r "updated_at").
    { intros id v m r.
      pose proof (Get_branchAttrs localOffset id v m)
        as (_ & _ & _ & _ & _ & _ & _ & _ & Hca & Hua).
      cbv zeta in Hca, Hua. subst r. rewrite Hca, Hua. auto. }
    destruct op;
      cbn [schema.context resourceBranch schema.CreateContext
           schema.ReadContext schema.UpdateContext schema.DeleteContext]
        in Hrun;
      cbn [callOf neon.perform].
    + rewrite resourceBranchCreate_eq in Hrun. cbv zeta in Hrun.
      destruct (neon.CreateProjectBranch _ _ _ _) as [[resp [e|]] w];
        [discriminate|].
      injection Hrun as <- <-. exists resp, w. split; [reflexivity|].
      apply Hget.
    + rewrite resourceBranchRead_eq in Hrun. cbv zeta in Hrun.
      destruct (neon.GetProjectBranch _ _ _ _) as [[resp [e|]] w];
        [discriminate|].
      injection Hrun as <- <-. exists resp, w. split; [reflexivity|].
      apply Hget.
    + rewrite resourceBranchUpdate_eq in Hrun. cbv zeta in Hrun.
      destruct (String.eqb_spec (attrString d "name") "") as [E|_];
        [by destruct (Hname eq_refl)|].
      destruct (neon.UpdateProjectBranch _ _ _ _ _) as [[resp [e|]] w];
        [discriminate|].
      injection Hrun as <- <-. exists resp, w. split; [reflexivity|].
      apply Hget.
    + rewrite resourceBranchDelete_eq in Hrun. cbv zeta in Hrun.
      destruct (neon.DeleteProjectBranch _ _ _ _) as [[resp [e|]] w];
        [discriminate|].
      injection Hrun as <- <-. exists resp, w. split; [reflexivity|].
      apply Hget.
Qed.

End Reconciler.

(** ** The claims at concrete inputs *)

(** C3, at a Read of a root branch: the bag held [parent_timestamp]
    1700000000 before; the remote branch has no parent timestamp, and the
    Read leaves [parent_timestamp] set to -62135596800, which is negative. *)
Theorem C3_read_stores_negative_parent_timestamp :
  0 <= attrInt presentData "parent_timestamp"
  /\ exists d' meta',
       resourceBranchRead utcOnly presentData (fakeMeta rootBranch None)
       = Some ([], d', meta')
       /\ isSet d' "parent_timestamp"
       /\ GetOk d' "parent_timestamp" = (schema.VInt (-62135596800), true)
       /\ attrInt d' "parent_timestamp" < 0.
Proof.
  split; [by vm_compute|].
  do 2 eexists. split; [vm_compute; reflexivity|].
  split; [eexists; vm_compute; reflexivity|].
  split; [vm_compute; reflexivity | by vm_compute].
Qed.

(** C2 at a present branch whose remote delete succeeds. *)
Lemma C2_witness :
  neon.DeleteProjectBranch (client (fakeMeta rootBranch None))
    (attrString presentData "project_id") (schema.Id presentData) tt
  = ((neon.mkBranchResponse rootBranch, None), tt)
  /\ exists d',
       resourceBranchDelete utcOnly presentData (fakeMeta rootBranch None)
       = Some ([], d',
               logged (fakeMeta rootBranch None)
                 (callOf schema.Delete presentData) tt)
       /\ schema.Id d' = ""
       /\ Get d' "parent_timestamp" = schema.VInt (-62135596800)
       /\ Get d' "created_at" = schema.VString "0001-01-01T00:00:00Z"
       /\ Get d' "updated_at" = schema.VString "0001-01-01T00:00:00Z".
Proof.
  split; [reflexivity|].
  destruct (C2_delete_leaves_zero_time_rendering utcOnly presentData
              (fakeMeta rootBranch None) (neon.mkBranchResponse rootBranch) tt
              eq_refl)
    as (d' & Hrun & Hid & _ & _ & _ & _ & _ & _ & _ & Hpt & Hca & Hua).
  exists d'. repeat split; assumption.
Defined.

(** C4 at a configuration with [parent_timestamp] 1700000000. *)
Lemma C4_witness :
  in_int64 (attrInt presentData "parent_timestamp")
  /\ exists cfg t diags d' meta',
       resourceBranchCreate utcOnly presentData (fakeMeta rootBranch None)
       = Some (diags, d', meta')
       /\ calls meta' = [neon.CallCreate "p1" cfg]
       /\ neon.create_ParentTimestamp (neon.create_Branch cfg) = Some t
       /\ time.Unix t = 1700000000.
Proof.
  assert (Hin : in_int64 (attrInt presentData "parent_timestamp")).
  { vm_compute. split; discriminate. }
  split; [exact Hin|].
  destruct (C4_create_payload utcOnly presentData (fakeMeta rootBranch None))
    as (cfg & diags & d' & meta' & Hrun & Hcalls & _ & _ & _ & Hiff & Ht).
  destruct (proj2 Hiff) as [t Hsome].
  { split; [eexists; vm_compute; reflexivity | reflexivity]. }
  exists cfg, t, diags, d', meta'.
  split; [exact Hrun|]. split; [exact Hcalls|]. split; [exact Hsome|].
  exact (proj2 (Ht t Hsome) Hin).
Defined.

(** C5 at a bag without [name]. *)
Lemma C5_witness :
  (schema.attrs absentData !! "name" = None
   \/ schema.attrs absentData !! "name" = Some (schema.VString ""))
  /\ resourceBranchUpdate utcOnly absentData (fakeMeta rootBranch None)
     = Some ([], absentData, fakeMeta rootBranch None).
Proof.
  split; [left; reflexivity|].
  apply C5_update_without_name_is_noop. left. reflexivity.
Defined.

(** C6 at a Create and at a Delete that the remote refuses. *)
Lemma C6_witness :
  resourceBranchCreate utcOnly absentData
    (fakeMeta rootBranch (Some "quota exceeded"))
  = Some ([diag.mkDiagnostic diag.Error "quota exceeded" ""], absentData,
          mkMeta (fakeClient rootBranch (Some "quota exceeded")) tt
            [callOf schema.Create absentData])
  /\ resourceBranchDelete utcOnly presentData
       (fakeMeta rootBranch (Some "branch not found"))
     = Some ([diag.mkDiagnostic diag.Error "branch not found" ""], presentData,
             mkMeta (fakeClient rootBranch (Some "branch not found")) tt
               [callOf schema.Delete presentData]).
Proof.
  split.
  - exact (C6_remote_failure utcOnly 0 schema.Create absentData
             (fakeMeta rootBranch (Some "quota exceeded"))
             (neon.mkBranchResponse rootBranch) "quota exceeded" tt
             (or_introl eq_refl) eq_refl).
  - exact (C6_remote_failure utcOnly 0 schema.Delete presentData
             (fakeMeta rootBranch (Some "branch not found"))
             (neon.mkBranchResponse rootBranch) "branch not found" tt
             (or_intror eq_refl) eq_refl).
Defined.

(** C10 at a Read of a branch created at 22:13:20Z and updated later. *)
Lemma C10_witness :
  exists d' meta',
    resourceBranchRead utcOnly presentData (fakeMeta rootBranch None)
    = Some ([], d', meta')
    /\ Get d' "created_at" = schema.VString "2023-11-14T22:13:20Z"
    /\ Get d' "updated_at" = schema.VString "2023-11-14T22:13:20Z".
Proof.
  exists (updateStateBranch utcOnly presentData rootBranch).2,
         (logged (fakeMeta rootBranch None) (callOf schema.Read presentData) tt).
  assert (Hrun :
    schema.context (resourceBranch utcOnly 0) schema.Read presentData
      (fakeMeta rootBranch None)
    = Some ([], (updateStateBranch utcOnly presentData rootBranch).2,
            logged (fakeMeta rootBranch None)
              (callOf schema.Read presentData) tt)).
  { vm_compute. reflexivity. }
  split; [exact Hrun|].
  destruct (proj2 (C10_created_at_equals_updated_at utcOnly 0) schema.Read
              presentData (fakeMeta rootBranch None) _ _ Hrun)
    as (resp & w & Hcall & Hca & Hua & _).
  { discriminate. }
  vm_compute in Hcall. injection Hcall as <- _.
  split; [exact Hca | exact Hua].
Defined.

(** * Further properties of the operations *)

Lemma project_id_not_mapped : "project_id" ∉ mapperKeys.
Proof.
  unfold mapperKeys. intros H.
  repeat (apply elem_of_cons in H as [H|H]; [discriminate|]).
  by apply elem_of_nil in H.
Qed.

Lemma schema_lookup_keys (key : string) (s : schema.Schema) :
  resourceBranchSchema !! key = Some s -> key ∈ schemaKeys.
Proof.
  unfold resourceBranchSchema. intros H.
  apply elem_of_list_to_map_2 in H. unfold schemaKeys, mapperKeys.
  repeat (apply elem_of_cons in H as [H|H];
          [injection H as -> _; set_solver|]).
  by apply elem_of_nil in H.
Qed.

Section Further.
Context {World : Type}.
Variable localOffset : Z -> Z.
Variable versionSchema : Z.

(** Every operation in one equation: the short circuit of Update, else one
    remote call, then either its error as the diagnostic with the bag
    untouched, or the mapper applied to the entity of the operation. *)
Lemma context_eq (op : schema.Operation) (d : schema.ResourceData)
    (meta : Meta World) :
  schema.context (resourceBranch localOffset versionSchema) op d meta
  = if shortCircuits op d then Some ([], d, meta)
    else
      let '((resp, err), w) :=
        neon.perform (client meta) (callOf op d) (remote meta) in
      let meta' := logged meta (callOf op d) w in
      match err with
      | Some e => Some ([diag.mkDiagnostic diag.Error e ""], d, meta')
      | None =>
          Some ([], schema.mkResourceData (mappedId op d resp)
                      (branchAttrs localOffset (mappedEntity op resp)
                         (schema.attrs d)), meta')
      end.
Proof.
  destruct op;
    cbn [schema.context resourceBranch schema.CreateContext
         schema.ReadContext schema.UpdateContext schema.DeleteContext
         shortCircuits callOf neon.perform mappedId mappedEntity].
  - rewrite resourceBranchCreate_eq. cbv zeta.
    by destruct (neon.CreateProjectBranch _ _ _ _) as [[resp [e|]] w].
  - rewrite resourceBranchRead_eq. cbv zeta.
    by destruct (neon.GetProjectBranch _ _ _ _) as [[resp [e|]] w].
  - rewrite resourceBranchUpdate_eq. cbv zeta.
    case (String.eqb (attrString d "name") ""); [reflexivity|].
    by destruct (neon.UpdateProjectBranch _ _ _ _ _) as [[resp [e|]] w].
  - rewrite resourceBranchDelete_eq. cbv zeta.
    by destruct (neon.DeleteProjectBranch _ _ _ _) as [[resp [e|]] w].
Qed.

Lemma Get_branchAttrs_other (id id' : string) (v : neon.Branch)
    (m : gmap string schema.Value) (key : string) :
  key ∉ mapperKeys ->
  Get (schema.mkResourceData id (branchAttrs localOffset v m)) key
  = Get (schema.mkResourceData id' m) key.
Proof.
  intros Hk. unfold Get, schema.Get, schema.readField. simpl schema.attrs.
  by rewrite branchAttrs_other.
Qed.

Lemma attrString_branchAttrs_project_id (id : string) (v : neon.Branch)
    (d : schema.ResourceData) :
  attrString
    (schema.mkResourceData id (branchAttrs localOffset v (schema.attrs d)))
    "project_id"
  = attrString d "project_id".
Proof.
  unfold attrString.
  rewrite (Get_branchAttrs_other id (schema.Id d) v (schema.attrs d)
             "project_id" project_id_not_mapped).
  by destruct d.
Qed.

(** A lookup in [branchAttrs] at one of the mapper's keys does not depend
    on the map underneath. *)
Lemma branchAttrs_lookup_mapped (v : neon.Branch)
    (m m' : gmap string schema.Value) (key : string) :
  key ∈ mapperKeys ->
  branchAttrs localOffset v m !! key = branchAttrs localOffset v m' !! key.
Proof.
  unfold mapperKeys. intros H.
  repeat (apply elem_of_cons in H as [->|H];
          [unfold branchAttrs; by simplify_map_eq|]).
  by apply elem_of_nil in H.
Qed.

(** The mapper overwrites: what an earlier application wrote is gone. *)
Lemma branchAttrs_overwrite (v1 v2 : neon.Branch)
    (m : gmap string schema.Value) :
  branchAttrs localOffset v2 (branchAttrs localOffset v1 m)
  = branchAttrs localOffset v2 m.
Proof.
  apply map_eq. intros key. destruct (decide (key ∈ mapperKeys)) as [Hk|Hk].
  - by apply branchAttrs_lookup_mapped.
  - by rewrite !branchAttrs_other.
Qed.

(** X1: every operation returns (no type assertion panics), and either it
    returns no diagnostic, or its remote call answered with an error [e] and
    it returns exactly one diagnostic, of severity Error with summary [e],
    with the bag exactly as it was: no identifier or attribute is written
    before the remote call has succeeded. *)
Theorem X1_error_leaves_bag_untouched (op : schema.Operation)
    (d : schema.ResourceData) (meta : Meta World) :
  exists diags d' meta',
    schema.context (resourceBranch localOffset versionSchema) op d meta
    = Some (diags, d', meta')
    /\ (diags = []
        \/ exists resp e w,
             neon.perform (client meta) (callOf op d) (remote meta)
             = ((resp, Some e), w)
             /\ diags = [diag.mkDiagnostic diag.Error e ""]
             /\ d' = d
             /\ meta' = logged meta (callOf op d) w).
Proof.
  rewrite context_eq. destruct (shortCircuits op d).
  { do 3 eexists. split; [reflexivity|]. by left. }
  cbv zeta.
  destruct (neon.perform _ _ _) as [[resp [e|]] w] eqn:E;
    do 3 eexists; (split; [reflexivity|]).
  - right. exists resp, e, w. repeat split; reflexivity.
  - by left.
Qed.

(** X2: an operation issues at most one remote call and keeps the client.
    Create, Read and Delete issue exactly one call in every case (Delete and
    Read also when the identifier is empty), Update exactly one when [name]
    is not empty and none otherwise; the remote state afterwards is the one
    that call left. *)
Theorem X2_at_most_one_remote_call (op : schema.Operation)
    (d : schema.ResourceData) (meta : Meta World) :
  exists diags d' meta',
    schema.context (resourceBranch localOffset versionSchema) op d meta
    = Some (diags, d', meta')
    /\ client meta' = client meta
    /\ if shortCircuits op d
       then calls meta' = calls meta /\ remote meta' = remote meta
       else calls meta' = (calls meta ++ [callOf op d])%list
            /\ remote meta'
               = (neon.perform (client meta) (callOf op d) (remote meta)).2.
Proof.
  rewrite context_eq. destruct (shortCircuits op d).
  { do 3 eexists. split; [reflexivity|]. auto. }
  cbv zeta.
  destruct (neon.perform _ _ _) as [[resp [e|]] w] eqn:E;
    do 3 eexists; (split; [reflexivity|]); auto.
Qed.


(** X4: when the remote create succeeds, Create returns no diagnostic, the
    identifier becomes the returned branch's [ID], and the eight attributes
    [name], [parent_id], [parent_lsn], [parent_timestamp], [logical_size],
    [physical_size_size], [current_state] and [pending_state] read as the
    returned branch says (so a configured [parent_timestamp] or [name] is
    replaced by the remote's); [created_at] and [updated_at] both read as
    the RFC3339 rendering of the returned branch's [CreatedAt]; and
    [project_id] stays the configured one: the branch's [ProjectID] is not
    stored. *)
Theorem X4_create_success (d : schema.ResourceData) (meta : Meta World)
    (resp : neon.BranchResponse) (w : World) :
  neon.perform (client meta) (callOf schema.Create d) (remote meta)
  = ((resp, None), w) ->
  exists d',
    resourceBranchCreate localOffset d meta
    = Some ([], d', logged meta (callOf schema.Create d) w)
    /\ schema.Id d' = neon.ID (neon.resp_Branch resp)
    /\ Get d' "project_id" = Get d "project_id"
    /\ Get d' "name" = schema.VString (neon.Name (neon.resp_Branch resp))
    /\ Get d' "parent_id"
       = schema.VString (neon.ParentID (neon.resp_Branch resp))
    /\ Get d' "parent_lsn"
       = schema.VString (neon.ParentLsn (neon.resp_Branch resp))
    /\ Get d' "parent_timestamp"
       = schema.VInt (time.Unix (neon.ParentTimestamp (neon.resp_Branch resp)))
    /\ Get d' "logical_size"
       = schema.VInt (neon.LogicalSize (neon.resp_Branch resp))
    /\ Get d' "physical_size_size"
       = schema.VInt (neon.PhysicalSize (neon.resp_Branch resp))
    /\ Get d' "current_state"
       = schema.VString (neon.CurrentState (neon.resp_Branch resp))
    /\ Get d' "pending_state"
       = schema.VString (neon.PendingState (neon.resp_Branch resp))
    /\ Get d' "created_at"
       = schema.VString
           (time.Format_RFC3339 localOffset
              (neon.CreatedAt (neon.resp_Branch resp)))
    /\ Get d' "updated_at"
       = schema.VString
           (time.Format_RFC3339 localOffset
              (neon.CreatedAt (neon.resp_Branch resp))).
Proof.
  intros Hc. simpl in Hc. rewrite resourceBranchCreate_eq. cbv zeta.
  rewrite Hc. eexists. split; [reflexivity|]. split; [reflexivity|].
  split.
  { rewrite (Get_branchAttrs_other _ (schema.Id d) _ _ _
               project_id_not_mapped). by destruct d. }
  apply (Get_branchAttrs localOffset (neon.ID (neon.resp_Branch resp))
           (neon.resp_Branch resp) (schema.attrs d)).
Qed.

(** X5: with a non-empty [name], Update sends one rename request that
    carries [project_id], the identifier and the name and nothing else; when
    it succeeds the identifier is kept and the bag is mapped from the
    returned branch, so [name] reads as the name the remote returned. *)
Theorem X5_update_renames (d : schema.ResourceData) (meta : Meta World)
    (resp : neon.BranchResponse) (w : World) :
  attrString d "name" <> "" ->
  neon.UpdateProjectBranch (client meta) (attrString d "project_id")
    (schema.Id d)
    {| neon.update_Branch := {| neon.update_Name := attrString d "name" |} |}
    (remote meta)
  = ((resp, None), w) ->
  exists d',
    resourceBranchUpdate localOffset d meta
    = Some ([], d',
            logged meta
              (neon.CallUpdate (attrString d "project_id") (schema.Id d)
                 {| neon.update_Branch :=
                      {| neon.update_Name := attrString d "name" |} |}) w)
    /\ schema.Id d' = schema.Id d
    /\ Get d' "project_id" = Get d "project_id"
    /\ Get d' "name" = schema.VString (neon.Name (neon.resp_Branch resp))
    /\ Get d' "parent_lsn"
       = schema.VString (neon.ParentLsn (neon.resp_Branch resp))
    /\ Get d' "current_state"
       = schema.VString (neon.CurrentState (neon.resp_Branch resp)).
Proof.
  intros Hname Hu. rewrite resourceBranchUpdate_eq. cbv zeta.
  destruct (String.eqb_spec (attrString d "name") "") as [E|_]; [done|].
  unfold updatePayload. rewrite Hu.
  eexists. split; [reflexivity|]. split; [reflexivity|]. split.
  { rewrite (Get_branchAttrs_other _ (schema.Id d) _ _ _
               project_id_not_mapped). by destruct d. }
  pose proof (Get_branchAttrs localOffset (schema.Id d)
                (neon.resp_Branch resp) (schema.attrs d))
    as (Hn & _ & Hpl & _ & _ & _ & Hcs & _).
  cbv zeta in *. repeat split; assumption.
Qed.

(** X6: the State Mapper overwrites.  Applying it for [v1] and then for [v2]
    gives the same result, error and bag, as applying it for [v2] alone; in
    particular applying it twice for the same entity is the same as once. *)
Theorem X6_mapper_overwrites (d : schema.ResourceData) (v1 v2 : neon.Branch) :
  updateStateBranch localOffset (updateStateBranch localOffset d v1).2 v2
  = updateStateBranch localOffset d v2
  /\ updateStateBranch localOffset (updateStateBranch localOffset d v2).2 v2
     = updateStateBranch localOffset d v2.
Proof.
  rewrite !updateStateBranch_eq. cbn [snd schema.Id schema.attrs].
  by rewrite !branchAttrs_overwrite.
Qed.

(** X7: Create followed by Read.  When the remote create succeeds with a
    branch and the following remote get returns that same branch, Read
    returns no diagnostic and leaves the bag exactly as Create left it. *)
Theorem X7_read_after_create_is_stable (d : schema.ResourceData)
    (meta : Meta World) (resp1 resp2 : neon.BranchResponse) (w1 w2 : World) :
  let d1 :=
    (updateStateBranch localOffset
       (schema.SetId d (neon.ID (neon.resp_Branch resp1)))
       (neon.resp_Branch resp1)).2 in
  let meta1 := logged meta (callOf schema.Create d) w1 in
  neon.perform (client meta) (callOf schema.Create d) (remote meta)
  = ((resp1, None), w1) ->
  neon.perform (client meta1) (callOf schema.Read d1) (remote meta1)
  = ((resp2, None), w2) ->
  neon.resp_Branch resp2 = neon.resp_Branch resp1 ->
  resourceBranchCreate localOffset d meta = Some ([], d1, meta1)
  /\ resourceBranchRead localOffset d1 meta1
     = Some ([], d1, logged meta1 (callOf schema.Read d1) w2)
  /\ neon.projectID_of (callOf schema.Read d1) = attrString d "project_id"
  /\ neon.branchID_of (callOf schema.Read d1)
     = Some (neon.ID (neon.resp_Branch resp1)).
Proof.
  intros d1 meta1.
  assert (Ed1 : d1 = schema.mkResourceData (neon.ID (neon.resp_Branch resp1))
                       (branchAttrs localOffset (neon.resp_Branch resp1)
                          (schema.attrs d))).
  { subst d1. by rewrite updateStateBranch_eq. }
  clearbody d1. subst d1. subst meta1. intros Hc Hg Hsame.
  cbn [callOf neon.perform logged client remote schema.Id schema.attrs] in *.
  split.
  { rewrite resourceBranchCreate_eq. cbv zeta. by rewrite Hc. }
  split.
  { rewrite resourceBranchRead_eq. cbv zeta.
    cbn [callOf neon.perform logged client remote schema.Id schema.attrs].
    rewrite Hg, Hsame. by rewrite branchAttrs_overwrite. }
  split.
  - cbn [neon.projectID_of]. apply attrString_branchAttrs_project_id.
  - reflexivity.
Qed.

(** X8: after the State Mapper every attribute of the schema other than
    [project_id] is set, to a value of the type the schema declares for it;
    these attributes are exactly the ones the schema marks Computed. *)
Theorem X8_mapper_sets_every_computed_attribute (d : schema.ResourceData)
    (v : neon.Branch) (key : string) (s : schema.Schema) :
  resourceBranchSchema !! key = Some s ->
  (key <> "project_id" <-> schema.Computed s = true)
  /\ (key <> "project_id" ->
      exists x,
        schema.readField resourceBranchSchema
          (updateStateBranch localOffset d v).2 key = Some x
        /\ schema.has_type x (schema.Type_ s) = true).
Proof.
  intros Hs. pose proof (schema_lookup_keys _ _ Hs) as Hk.
  rewrite updateStateBranch_eq. cbn [snd].
  unfold schemaKeys, mapperKeys in Hk.
  apply elem_of_cons in Hk as [->|Hk].
  { vm_compute in Hs. injection Hs as <-. split.
    - split; [intros H; by destruct H | intros H; discriminate H].
    - intros H. by destruct H. }
  repeat (apply elem_of_cons in Hk as [->|Hk];
    [ vm_compute in Hs; injection Hs as <-; split;
      [ split; [intros _; reflexivity | intros _ H; discriminate H]
      | intros _; eexists; split;
        [ eapply readField_stored;
          [reflexivity | unfold branchAttrs; by simplify_map_eq | reflexivity]
        | reflexivity ] ]
    | ]).
  by apply elem_of_nil in Hk.
Qed.

(** X9: when the remote get fails with the error [e], Import returns no
    resource and an error whose text is [e] itself, and the bag it was given
    is exactly as before. *)
Theorem X9_import_failure (d : schema.ResourceData) (meta : Meta World)
    (resp : neon.BranchResponse) (e : error) (w : World) :
  neon.perform (client meta) (callOf schema.Read d) (remote meta)
  = ((resp, Some e), w) ->
  resourceBranchImport localOffset d meta
  = Some (([], Some e), d, logged meta (callOf schema.Read d) w).
Proof.
  intros Hg. cbn [callOf neon.perform] in Hg.
  unfold resourceBranchImport. rewrite resourceBranchRead_eq. cbv zeta.
  by rewrite Hg.
Qed.

(** X10: when the remote get succeeds, Import returns a nil error and exactly
    one resource: the bag that the State Mapper makes of the bag given and
    the branch fetched.  Its identifier and [project_id] are the ones
    supplied; the identifier and project of the fetched branch are not
    stored. *)
Theorem X10_import_success (d : schema.ResourceData) (meta : Meta World)
    (resp : neon.BranchResponse) (w : World) :
  neon.perform (client meta) (callOf schema.Read d) (remote meta)
  = ((resp, None), w) ->
  let d' := (updateStateBranch localOffset d (neon.resp_Branch resp)).2 in
  resourceBranchImport localOffset d meta
  = Some (([d'], None), d', logged meta (callOf schema.Read d) w)
  /\ schema.Id d' = schema.Id d
  /\ Get d' "project_id" = Get d "project_id"
  /\ Get d' "name" = schema.VString (neon.Name (neon.resp_Branch resp)).
Proof.
  intros Hg d'. cbn [callOf neon.perform] in Hg.
  assert (Ed' : d' = schema.mkResourceData (schema.Id d)
                       (branchAttrs localOffset (neon.resp_Branch resp)
                          (schema.attrs d))).
  { subst d'. by rewrite updateStateBranch_eq. }
  clearbody d'. subst d'.
  unfold resourceBranchImport. rewrite resourceBranchRead_eq. cbv zeta.
  rewrite Hg. split; [reflexivity|]. split; [reflexivity|]. split.
  - rewrite (Get_branchAttrs_other _ (schema.Id d) _ _ _
               project_id_not_mapped). by destruct d.
  - apply (Get_branchAttrs localOffset (schema.Id d) (neon.resp_Branch resp)
             (schema.attrs d)).
Qed.

(** X11: Import on a bag without [project_id] is not refused: it issues the
    remote get with the empty string as project. *)
Theorem X11_import_without_project_id (d : schema.ResourceData)
    (meta : Meta World) :
  schema.attrs d !! "project_id" = None ->
  exists r d' meta',
    resourceBranchImport localOffset d meta = Some (r, d', meta')
    /\ calls meta' = (calls meta ++ [neon.CallGet "" (schema.Id d)])%list.
Proof.
  intros Hp.
  assert (E : attrString d "project_id" = "")
    by (apply attrString_empty; [reflexivity | by left]).
  unfold resourceBranchImport. rewrite resourceBranchRead_eq. cbv zeta.
  rewrite E.
  destruct (neon.GetProjectBranch _ _ _ _) as [[resp [e|]] w];
    do 3 eexists; split; reflexivity.
Qed.

(** X12: validation and Create disagree at 0.  A [parent_timestamp] that
    validation accepts is sent by Create as [time.Unix(parent_timestamp, 0)]
    unless it is 0: the value 0 passes validation and is then treated as if
    no timestamp had been configured. *)
Theorem X12_validated_timestamp_in_payload (d : schema.ResourceData)
    (meta : Meta World) (n : Z) :
  schema.attrs d !! "parent_timestamp" = Some (schema.VInt n) ->
  intValidationNotNegative (schema.VInt n) "parent_timestamp"
  = Some ([], []) ->
  exists cfg diags d' meta',
    resourceBranchCreate localOffset d meta = Some (diags, d', meta')
    /\ calls meta'
       = (calls meta ++ [neon.CallCreate (attrString d "project_id") cfg])%list
    /\ neon.create_ParentTimestamp (neon.create_Branch cfg)
       = if n =? 0 then None else Some (time.Unix_ n 0).
Proof.
  intros Hn Hv.
  assert (En : attrInt d "parent_timestamp" = n).
  { unfold attrInt.
    by rewrite (Get_stored d "parent_timestamp" _ schema.TypeInt eq_refl Hn
                  eq_refl). }
  assert (Hpos : 0 <= n).
  { unfold intValidationNotNegative in Hv.
    cbn [mbind option_bind schema.asInt] in Hv.
    destruct (Z.ltb_spec n 0); [discriminate | lia]. }
  exists (createPayload d). rewrite resourceBranchCreate_eq. cbv zeta.
  assert (Hts : neon.create_ParentTimestamp
                  (neon.create_Branch (createPayload d))
                = if n =? 0 then None else Some (time.Unix_ n 0)).
  { unfold createPayload.
    cbn [neon.create_Branch neon.create_ParentTimestamp]. rewrite En.
    destruct (Z.eqb_spec n 0) as [->|Hne]; [reflexivity|].
    destruct (Z.ltb_spec 0 n); [reflexivity | lia]. }
  destruct (neon.CreateProjectBranch _ _ _ _) as [[resp [e|]] w];
    do 3 eexists; (split; [reflexivity|]); (split; [reflexivity|]);
    exact Hts.
Qed.

End Further.

(** X13: the conflict declarations of the schema are symmetric.  Whenever an
    attribute lists another in [ConflictsWith], the other is an attribute of
    the schema that lists the first, the two differ, and both are optional
    and force a new resource. *)
Theorem X13_conflicts_are_symmetric (key1 key2 : string) (s1 : schema.Schema) :
  resourceBranchSchema !! key1 = Some s1 ->
  key2 ∈ schema.ConflictsWith s1 ->
  exists s2,
    resourceBranchSchema !! key2 = Some s2
    /\ key1 ∈ schema.ConflictsWith s2
    /\ key1 <> key2
    /\ schema.Optional s1 = true /\ schema.Optional s2 = true
    /\ schema.ForceNew s1 = true /\ schema.ForceNew s2 = true.
Proof.
  intros Hs Hc. pose proof (schema_lookup_keys _ _ Hs) as Hk.
  unfold schemaKeys, mapperKeys in Hk.
  repeat (apply elem_of_cons in Hk as [->|Hk];
    [ vm_compute in Hs; injection Hs as <-; cbn [schema.ConflictsWith] in Hc;
      first [ by apply elem_of_nil in Hc
            | apply list_elem_of_singleton in Hc as ->;
              eexists; split; [reflexivity|];
              split; [cbn [schema.ConflictsWith]; set_solver|];
              split; [discriminate|]; repeat split; reflexivity ]
    | ]).
  by apply elem_of_nil in Hk.
Qed.

(** ** The further properties at concrete inputs *)

(** X4 at a Create that the remote answers with the root branch, created
    at 22:13:20Z and updated at 23:13:20Z. *)
Lemma X4_witness :
  neon.perform (client (fakeMeta rootBranch None))
    (callOf schema.Create absentData) tt
  = ((neon.mkBranchResponse rootBranch, None), tt)
  /\ exists d',
       resourceBranchCreate utcOnly absentData (fakeMeta rootBranch None)
       = Some ([], d',
               logged (fakeMeta rootBranch None)
                 (callOf schema.Create absentData) tt)
       /\ schema.Id d' = "br-123"
       /\ Get d' "name" = schema.VString "dev"
       /\ Get d' "created_at" = schema.VString "2023-11-14T22:13:20Z"
       /\ Get d' "updated_at" = schema.VString "2023-11-14T22:13:20Z".
Proof.
  split; [reflexivity|].
  destruct (X4_create_success utcOnly absentData (fakeMeta rootBranch None)
              (neon.mkBranchResponse rootBranch) tt eq_refl)
    as (d' & Hrun & Hid & _ & Hname & _ & _ & _ & _ & _ & _ & _ & Hca & Hua).
  exists d'. repeat split; assumption.
Defined.

(** X5 at the present branch named "dev". *)
Lemma X5_witness :
  attrString presentData "name" <> ""
  /\ exists d',
       resourceBranchUpdate utcOnly presentData (fakeMeta rootBranch None)
       = Some ([], d',
               logged (fakeMeta rootBranch None)
                 (neon.CallUpdate "p1" "br-123"
                    {| neon.update_Branch := {| neon.update_Name := "dev" |} |})
                 tt)
       /\ schema.Id d' = "br-123".
Proof.
  assert (Hname : attrString presentData "name" <> "")
    by (intros H; vm_compute in H; discriminate H).
  split; [exact Hname|].
  destruct (X5_update_renames utcOnly presentData (fakeMeta rootBranch None)
              (neon.mkBranchResponse rootBranch) tt Hname eq_refl)
    as (d' & Hrun & Hid & _).
  exists d'. split; [exact Hrun | exact Hid].
Defined.

(** X7 at a Create and a Read that the remote both answers with the root
    branch. *)
Lemma X7_witness :
  let d1 :=
    (updateStateBranch utcOnly (schema.SetId absentData "br-123") rootBranch).2
  in
  resourceBranchCreate utcOnly absentData (fakeMeta rootBranch None)
  = Some ([], d1,
          logged (fakeMeta rootBranch None)
            (callOf schema.Create absentData) tt)
  /\ resourceBranchRead utcOnly d1
       (logged (fakeMeta rootBranch None)
          (callOf schema.Create absentData) tt)
     = Some ([], d1,
             logged
               (logged (fakeMeta rootBranch None)
                  (callOf schema.Create absentData) tt)
               (callOf schema.Read d1) tt).
Proof.
  intros d1.
  destruct (X7_read_after_create_is_stable utcOnly absentData
              (fakeMeta rootBranch None) (neon.mkBranchResponse rootBranch)
              (neon.mkBranchResponse rootBranch) tt tt eq_refl eq_refl eq_refl)
    as (Hc & Hr & _).
  split; [exact Hc | exact Hr].
Defined.

(** X8 at the attribute [current_state]. *)
Lemma X8_witness :
  is_Some (resourceBranchSchema !! "current_state")
  /\ exists x,
       schema.readField resourceBranchSchema
         (updateStateBranch utcOnly absentData rootBranch).2 "current_state"
       = Some x
       /\ schema.has_type x schema.TypeString = true.
Proof.
  split; [eexists; reflexivity|].
  exact (proj2 (X8_mapper_sets_every_computed_attribute utcOnly absentData
                  rootBranch "current_state" _ eq_refl)
           ltac:(discriminate)).
Defined.

(** X9 at an Import that the remote refuses. *)
Lemma X9_witness :
  resourceBranchImport utcOnly presentData
    (fakeMeta rootBranch (Some "branch not found"))
  = Some (([], Some "branch not found"), presentData,
          logged (fakeMeta rootBranch (Some "branch not found"))
            (callOf schema.Read presentData) tt).
Proof.
  exact (X9_import_failure utcOnly presentData
           (fakeMeta rootBranch (Some "branch not found"))
           (neon.mkBranchResponse rootBranch) "branch not found" tt eq_refl).
Defined.

(** X10 at an Import of the root branch. *)
Lemma X10_witness :
  let d' := (updateStateBranch utcOnly presentData rootBranch).2 in
  resourceBranchImport utcOnly presentData (fakeMeta rootBranch None)
  = Some (([d'], None), d',
          logged (fakeMeta rootBranch None)
            (callOf schema.Read presentData) tt)
  /\ schema.Id d' = "br-123"
  /\ Get d' "name" = schema.VString "dev".
Proof.
  intros d'.
  destruct (X10_import_success utcOnly presentData (fakeMeta rootBranch None)
              (neon.mkBranchResponse rootBranch) tt eq_refl)
    as (Hrun & Hid & _ & Hname).
  repeat split; assumption.
Defined.

(** X11 at a bag that holds an identifier and nothing else. *)
Lemma X11_witness :
  exists r d' meta',
    resourceBranchImport utcOnly (schema.mkResourceData "br-123" ∅)
      (fakeMeta rootBranch None)
    = Some (r, d', meta')
    /\ calls meta' = [neon.CallGet "" "br-123"].
Proof.
  exact (X11_import_without_project_id utcOnly
           (schema.mkResourceData "br-123" ∅) (fakeMeta rootBranch None)
           eq_refl).
Defined.

(** X12 at a configuration with [parent_timestamp] 0. *)
Lemma X12_witness :
  intValidationNotNegative (schema.VInt 0) "parent_timestamp" = Some ([], [])
  /\ exists cfg diags d' meta',
       resourceBranchCreate utcOnly
         (schema.mkResourceData ""
            (<["project_id" := schema.VString "p1"]>
             (<["parent_timestamp" := schema.VInt 0]> ∅)))
         (fakeMeta rootBranch None)
       = Some (diags, d', meta')
       /\ calls meta' = [neon.CallCreate "p1" cfg]
       /\ neon.create_ParentTimestamp (neon.create_Branch cfg) = None.
Proof.
  split; [reflexivity|].
  exact (X12_validated_timestamp_in_payload utcOnly
           (schema.mkResourceData ""
              (<["project_id" := schema.VString "p1"]>
               (<["parent_timestamp" := schema.VInt 0]> ∅)))
           (fakeMeta rootBranch None) 0 eq_refl eq_refl).
Defined.

(** X13 at [parent_lsn], which lists [parent_timestamp]. *)
Lemma X13_witness :
  exists s1 s2,
    resourceBranchSchema !! "parent_lsn" = Some s1
    /\ "parent_timestamp" ∈ schema.ConflictsWith s1
    /\ resourceBranchSchema !! "parent_timestamp" = Some s2
    /\ "parent_lsn" ∈ schema.ConflictsWith s2.
Proof.
  eexists.
  assert (Hin : "parent_timestamp" ∈ ["parent_timestamp"])
    by apply list_elem_of_here.
  destruct (X13_conflicts_are_symmetric "parent_lsn" "parent_timestamp" _
              eq_refl Hin) as (s2 & Hs2 & Hback & _).
  exists s2. split; [reflexivity|]. split; [exact Hin|].
  split; [exact Hs2 | exact Hback].
Defined.

(** ** Round trip of the parent timestamp *)

Lemma Get_int (d : schema.ResourceData) (key : string) :
  keyType key = Some schema.TypeInt -> Get d key = schema.VInt (attrInt d key).
Proof.
  intros Hk. pose proof (Get_typed d key _ Hk) as Ht. unfold attrInt.
  by destruct (Get d key).
Qed.

(** X14: a configured [parent_timestamp] survives Create.  When the payload
    of the create call carries a timestamp and the remote answers with a
    branch whose [ParentTimestamp] is the same instant, in whatever time
    zone, the bag reads the same [parent_timestamp] after Create as before:
    epoch seconds to [time.Time] and back to epoch seconds loses nothing. *)
Theorem X14_parent_timestamp_round_trip {World : Type} (localOffset : Z -> Z)
    (d : schema.ResourceData) (meta : Meta World)
    (cfg : neon.BranchCreateRequest) (t : time.Time)
    (resp : neon.BranchResponse) (w : World) :
  callOf schema.Create d = neon.CallCreate (attrString d "project_id") cfg ->
  neon.create_ParentTimestamp (neon.create_Branch cfg) = Some t ->
  neon.perform (client meta) (callOf schema.Create d) (remote meta)
  = ((resp, None), w) ->
  time.ext (neon.ParentTimestamp (neon.resp_Branch resp)) = time.ext t ->
  in_int64 (attrInt d "parent_timestamp") ->
  exists d',
    resourceBranchCreate localOffset d meta
    = Some ([], d', logged meta (callOf schema.Create d) w)
    /\ Get d' "parent_timestamp" = Get d "parent_timestamp"
    /\ 0 < attrInt d' "parent_timestamp".
Proof.
  intros Hcfg Ht Hc Hext Hin. cbn [callOf] in Hcfg. injection Hcfg as <-.
  cbn [callOf neon.perform] in Hc.
  unfold createPayload in Ht.
  cbn [neon.create_Branch neon.create_ParentTimestamp] in Ht.
  destruct (Z.ltb_spec 0 (attrInt d "parent_timestamp")) as [Hpos|];
    [|discriminate]. injection Ht as <-.
  rewrite resourceBranchCreate_eq. cbv zeta. rewrite Hc.
  eexists. split; [reflexivity|].
  pose proof (Get_branchAttrs localOffset (neon.ID (neon.resp_Branch resp))
                (neon.resp_Branch resp) (schema.attrs d))
    as (_ & _ & _ & Hpt & _).
  cbv zeta in Hpt.
  assert (Eu : time.Unix (neon.ParentTimestamp (neon.resp_Branch resp))
               = attrInt d "parent_timestamp").
  { transitivity (time.Unix (time.Unix_ (attrInt d "parent_timestamp") 0)).
    - unfold time.Unix. by rewrite Hext.
    - by apply Unix_roundtrip. }
  rewrite Eu in Hpt. split.
  - rewrite Hpt. symmetry. by apply Get_int.
  - unfold attrInt at 1. by rewrite Hpt.
Qed.

(** X14 at a Create with [parent_timestamp] 1700000000 that the remote
    answers with a branch forked at that instant. *)
Lemma X14_witness :
  in_int64 (attrInt presentData "parent_timestamp")
  /\ exists d',
       resourceBranchCreate utcOnly presentData (fakeMeta forkedBranch None)
       = Some ([], d',
               logged (fakeMeta forkedBranch None)
                 (callOf schema.Create presentData) tt)
       /\ Get d' "parent_timestamp" = schema.VInt 1700000000.
Proof.
  assert (Hin : in_int64 (attrInt presentData "parent_timestamp")).
  { vm_compute. split; discriminate. }
  split; [exact Hin|].
  destruct (X14_parent_timestamp_round_trip utcOnly presentData
              (fakeMeta forkedBranch None) (createPayload presentData)
              (time.Unix_ 1700000000 0) (neon.mkBranchResponse forkedBranch)
              tt eq_refl eq_refl eq_refl eq_refl Hin)
    as (d' & Hrun & Hpt & _).
  exists d'. split; [exact Hrun | exact Hpt].
Defined.
